(** * Reaction-time test: statistics engine and history log

    A shallow embedding of [reaction_time.py].  Reaction times are Python
    floats, so they are modelled by Rocq's primitive binary64 floats: every
    arithmetic operation and every comparison below is the IEEE-754 one the
    interpreter performs.  Exceptions are explicit results, the console is a
    list of printed strings, and the log file in the home directory is the
    list of records the [csv] module reads from it and appends to it. *)

From Stdlib Require Import ZArith List String Ascii Bool Lia.
From Stdlib Require Import Floats DecimalString.
Import ListNotations.

#[local] Set Warnings "-inexact-float".
#[local] Open Scope string_scope.
#[local] Open Scope Z_scope.

(* ================================================================== *)
(** ** Python runtime: exceptions *)

Inductive exn : Type :=
| ValueError
| TypeError
| KeyError
| ZeroDivisionError
| OverflowError.

Inductive result (A : Type) : Type :=
| Ok (a : A)
| Raise (e : exn).

Arguments Ok {A} a.
Arguments Raise {A} e.

Definition bind {A B : Type} (c : result A) (k : A -> result B) : result B :=
  match c with
  | Ok a => k a
  | Raise e => Raise e
  end.

Notation "x <- c ;; k" := (bind c (fun x => k))
  (at level 61, c at next level, right associativity).

(* ================================================================== *)
(** ** Python runtime: floats *)

(** [int] operand of a mixed [float]/[int] operation: the nearest binary64
    value, ties to even.  (For an [int] beyond the float range Python raises
    [OverflowError]; the ints that reach this function are the literals of
    the program and the lengths of lists.) *)
Definition float_of_int (z : Z) : float :=
  SF2Prim (binary_normalize prec emax z 0 false).

(** [sum(xs)]: accumulation from the [int] 0, left to right, each addition
    rounded.  (CPython 3.12 and later add a correction for the rounding
    errors at the end; on every session evaluated below the two agree.) *)
Definition py_sum (xs : list float) : float :=
  fold_left PrimFloat.add xs 0%float.

(** [max(xs)]: the first element stays unless a later one compares greater. *)
Definition py_max (xs : list float) : result float :=
  match xs with
  | [] => Raise ValueError
  | x :: rest => Ok (fold_left (fun m y => if (m <? y)%float then y else m) rest x)
  end.

(** [min(xs)]: the first element stays unless a later one compares less. *)
Definition py_min (xs : list float) : result float :=
  match xs with
  | [] => Raise ValueError
  | x :: rest => Ok (fold_left (fun m y => if (y <? m)%float then y else m) rest x)
  end.

(** [x / n] for an [int] divisor [n] (here always a list length). *)
Definition py_truediv (x : float) (n : nat) : result float :=
  match n with
  | O => Raise ZeroDivisionError
  | S _ => Ok (x / float_of_int (Z.of_nat n))%float
  end.

(** [int(x)]: truncation towards zero. *)
Definition py_int (x : float) : result Z :=
  match Prim2SF x with
  | S754_nan => Raise ValueError
  | S754_infinity _ => Raise OverflowError
  | S754_zero _ => Ok 0
  | S754_finite s m e =>
      let a := match e with
               | Zneg p => Z.pos m / 2 ^ Z.pos p
               | _ => Z.pos m * 2 ^ e
               end in
      Ok (if s then - a else a)
  end.

(* ================================================================== *)
(** ** Python runtime: text *)

Definition nl : string := String (ascii_of_nat 10) "".

Definition str_of_nat (n : nat) : string :=
  NilZero.string_of_uint (Nat.to_uint n).

Definition str_of_Z (z : Z) : string :=
  match z with
  | Zneg p => "-" ++ NilZero.string_of_uint (Pos.to_uint p)
  | _ => NilZero.string_of_uint (N.to_uint (Z.to_N z))
  end.

Fixpoint repeat_str (s : string) (n : nat) : string :=
  match n with
  | O => ""
  | S n' => s ++ repeat_str s n'
  end.

(** [sep.join(xs)] *)
Fixpoint join (sep : string) (xs : list string) : string :=
  match xs with
  | [] => ""
  | [x] => x
  | x :: rest => x ++ sep ++ join sep rest
  end.

(** Left padding with zeros up to [width] characters. *)
Definition zfill (width : nat) (s : string) : string :=
  repeat_str "0" (width - String.length s) ++ s.

(** Nearest integer to [n * 2^e], ties to even. *)
Definition round_half_even (n e : Z) : Z :=
  match e with
  | Zneg p =>
      let d := 2 ^ Z.pos p in
      let q := n / d in
      let r := n mod d in
      match 2 * r ?= d with
      | Lt => q
      | Gt => q + 1
      | Eq => if Z.even q then q else q + 1
      end
  | _ => n * 2 ^ e
  end.

(** The digits of [k / 10^ndec] with [ndec] decimals. *)
Definition fixed_digits (ndec : nat) (k : Z) : string :=
  let p := 10 ^ Z.of_nat ndec in
  match ndec with
  | O => str_of_Z k
  | S _ => str_of_Z (k / p) ++ "." ++ zfill ndec (str_of_Z (k mod p))
  end.

(** [f"{x:.Nf}"]: the exact binary value rounded to [ndec] decimals, ties
    to even. *)
Definition format_fixed (ndec : nat) (x : float) : string :=
  match Prim2SF x with
  | S754_nan => "nan"
  | S754_infinity s => if s then "-inf" else "inf"
  | S754_zero s => (if s then "-" else "") ++ fixed_digits ndec 0
  | S754_finite s m e =>
      (if s then "-" else "")
      ++ fixed_digits ndec (round_half_even (Z.pos m * 10 ^ Z.of_nat ndec) e)
  end.

(** *** [float(s)] on a string

    The builtin first brings a text with characters outside ASCII down to
    ASCII (every Unicode space to a plain space, every decimal digit of any
    script to its ASCII digit).  Then it strips the ASCII whitespace at both
    ends and reads an optional sign followed by [inf], [infinity] or [nan]
    in any letter case, or by a decimal numeral with optional fraction and
    exponent in which single underscores may separate digits.  The result
    is the binary64 value nearest to the numeral, with its sign. *)

(** The whitespace stripped at the ends: tab, line feed, vertical tab, form
    feed, carriage return and space. *)
Definition is_space (c : ascii) : bool :=
  let n := nat_of_ascii c in
  ((9 <=? n) && (n <=? 13) || (n =? 32))%nat.

Definition digit_of_ascii (c : ascii) : option Z :=
  let n := Z.of_nat (nat_of_ascii c) in
  if (48 <=? n) && (n <=? 57) then Some (n - 48) else None.

Definition starts_with_digit (s : string) : bool :=
  match s with
  | String c _ => match digit_of_ascii c with Some _ => true | None => false end
  | EmptyString => false
  end.

Fixpoint lstrip (s : string) : string :=
  match s with
  | String c s' => if is_space c then lstrip s' else s
  | EmptyString => EmptyString
  end.

Fixpoint rstrip (s : string) : string :=
  match s with
  | String c s' =>
      match rstrip s' with
      | EmptyString => if is_space c then EmptyString else String c EmptyString
      | r => String c r
      end
  | EmptyString => EmptyString
  end.

Definition strip (s : string) : string := rstrip (lstrip s).

Definition lower_ascii (c : ascii) : ascii :=
  let n := nat_of_ascii c in
  if ((65 <=? n) && (n <=? 90))%nat then ascii_of_nat (n + 32) else c.

Fixpoint lower (s : string) : string :=
  match s with
  | String c s' => String (lower_ascii c) (lower s')
  | EmptyString => EmptyString
  end.

(** [digit (["_"] digit)*], read greedily: the value accumulated onto [acc],
    the number of digits read added to [n], and the unread rest.  An
    underscore is read only between two digits. *)
Fixpoint digitpart (s : string) (acc : Z) (n : nat) : Z * nat * string :=
  match s with
  | String c s' =>
      match digit_of_ascii c with
      | Some d => digitpart s' (10 * acc + d) (S n)
      | None =>
          if (Ascii.eqb c "_" && negb (Nat.eqb n 0) && starts_with_digit s')%bool
          then digitpart s' acc n
          else (acc, n, s)
      end
  | EmptyString => (acc, n, s)
  end.

(** The exponent part: empty, or [e] or [E], an optional sign and digits.
    [None] when what is left is not an exponent part. *)
Definition exponent (s : string) : option Z :=
  match s with
  | EmptyString => Some 0
  | String c s' =>
      if (Ascii.eqb c "e" || Ascii.eqb c "E")%bool then
        let '(neg, u) :=
          match s' with
          | String "+" r => (false, r)
          | String "-" r => (true, r)
          | _ => (false, s')
          end in
        match digitpart u 0 0 with
        | (_, O, _) => None
        | (v, S _, EmptyString) => Some (if neg then - v else v)
        | (_, S _, String _ _) => None
        end
      else None
  end.

(** A decimal numeral as the pair [(d, k)] standing for [d * 10^k]. *)
Definition parse_decimal (s : string) : option (Z * Z) :=
  let '(ip, ni, r1) := digitpart s 0 0 in
  let '(d, nf, r2) :=
    match r1 with
    | String "." r => digitpart r ip 0
    | _ => (ip, O, r1)
    end in
  match (ni + nf)%nat with
  | O => None
  | S _ =>
      match exponent r2 with
      | Some ex => Some (d, ex - Z.of_nat nf)
      | None => None
      end
  end.

(** The binary64 value nearest to [d * 10^k], ties to even, with sign
    [neg]. *)
Definition decimal_to_float (neg : bool) (d k : Z) : float :=
  SF2Prim
    match d with
    | Zpos m =>
        match k with
        | Zneg p =>
            SFdiv prec emax (S754_finite neg m 0)
                  (S754_finite false (Z.to_pos (10 ^ Z.pos p)) 0)
        | _ =>
            binary_normalize prec emax
              (if neg then - (d * 10 ^ k) else d * 10 ^ k) 0 neg
        end
    | _ => S754_zero neg
    end.

(** What [float] does with a text once it is plain ASCII: spaces are
    stripped at both ends, then the whole of what is left must be a signed
    [inf], [infinity] or [nan] in any case, or a decimal numeral. *)
Definition float_from_string_inner (s : string) : result float :=
  let t := strip s in
  let '(neg, u) :=
    match t with
    | String "+" r => (false, r)
    | String "-" r => (true, r)
    | _ => (false, t)
    end in
  let w := lower u in
  if (String.eqb w "inf" || String.eqb w "infinity")%bool
  then Ok (if neg then neg_infinity else infinity)
  else if String.eqb w "nan" then Ok nan
  else
    match parse_decimal u with
    | Some (d, k) => Ok (decimal_to_float neg d k)
    | None => Raise ValueError
    end.

(** A text is held as its UTF-8 bytes. *)
Definition byte (c : ascii) : Z := Z.of_nat (nat_of_ascii c).

Fixpoint is_ascii (s : string) : bool :=
  match s with
  | String c s' => (byte c <? 128) && is_ascii s'
  | EmptyString => true
  end.

(** The six low bits of a continuation byte. *)
Definition continuation (c : ascii) : option Z :=
  let b := byte c in
  if (128 <=? b) && (b <? 192) then Some (b - 128) else None.

(** Stands for a byte that begins no well-formed sequence; no text read
    from a file holds one. *)
Definition ill_formed : Z := 65533.

(** The code points of a text. *)
Fixpoint utf8_decode (s : string) : list Z :=
  match s with
  | EmptyString => []
  | String c0 r0 =>
      let b0 := byte c0 in
      if b0 <? 128 then b0 :: utf8_decode r0
      else
        match r0 with
        | String c1 r1 =>
            match continuation c1 with
            | Some x1 =>
                if (194 <=? b0) && (b0 <? 224)
                then ((b0 - 192) * 64 + x1) :: utf8_decode r1
                else
                  match r1 with
                  | String c2 r2 =>
                      match continuation c2 with
                      | Some x2 =>
                          let cp3 := ((b0 - 224) * 64 + x1) * 64 + x2 in
                          if (224 <=? b0) && (b0 <? 240) && (2048 <=? cp3)
                             && negb ((55296 <=? cp3) && (cp3 <? 57344))
                          then cp3 :: utf8_decode r2
                          else
                            match r2 with
                            | String c3 r3 =>
                                match continuation c3 with
                                | Some x3 =>
                                    let cp4 :=
                                      (((b0 - 240) * 64 + x1) * 64 + x2) * 64 + x3 in
                                    if (240 <=? b0) && (b0 <? 245)
                                       && (65536 <=? cp4) && (cp4 <? 1114112)
                                    then cp4 :: utf8_decode r3
                                    else ill_formed :: utf8_decode r0
                                | None => ill_formed :: utf8_decode r0
                                end
                            | EmptyString => ill_formed :: utf8_decode r0
                            end
                      | None => ill_formed :: utf8_decode r0
                      end
                  | EmptyString => ill_formed :: utf8_decode r0
                  end
            | None => ill_formed :: utf8_decode r0
            end
        | EmptyString => [ill_formed]
        end
  end.

(** [str.isspace] of one character. *)
Definition unicode_isspace (ch : Z) : bool :=
  existsb (Z.eqb ch)
    [9; 10; 11; 12; 13; 28; 29; 30; 31; 32; 133; 160; 5760; 8192; 8193; 8194;
     8195; 8196; 8197; 8198; 8199; 8200; 8201; 8202; 8232; 8233; 8239; 8287;
     12288].

(** The digit zero of every script that has decimal digits (Unicode 14.0,
    the table of CPython 3.11); the digits one to nine follow each. *)
Definition decimal_zeros : list Z :=
  [48; 1632; 1776; 1984; 2406; 2534; 2662; 2790; 2918; 3046; 3174; 3302;
   3430; 3558; 3664; 3792; 3872; 4160; 4240; 6112; 6160; 6470; 6608; 6784;
   6800; 6992; 7088; 7232; 7248; 42528; 43216; 43264; 43472; 43504; 43600;
   44016; 65296; 66720; 68912; 69734; 69872; 69942; 70096; 70384; 70736;
   70864; 71248; 71360; 71472; 71904; 72016; 72784; 73040; 73120; 92768;
   92864; 93008; 120782; 120792; 120802; 120812; 120822; 123200; 123632;
   125264; 130032].

(** The value of a decimal digit of any script. *)
Definition unicode_todecimal (ch : Z) : option Z :=
  match find (fun zero => (zero <=? ch) && (ch <? zero + 10)) decimal_zeros with
  | Some zero => Some (ch - zero)
  | None => None
  end.

(** A text with a character outside ASCII is first rewritten: every space
    of Unicode becomes a plain space and every decimal digit its ASCII
    digit; the text is cut at the first other character outside ASCII,
    which becomes a question mark. *)
Fixpoint transform_decimal_and_space (chars : list Z) : string :=
  match chars with
  | [] => EmptyString
  | ch :: rest =>
      if ch <? 127
      then String (ascii_of_nat (Z.to_nat ch)) (transform_decimal_and_space rest)
      else if unicode_isspace ch
      then String " " (transform_decimal_and_space rest)
      else
        match unicode_todecimal ch with
        | Some d =>
            String (ascii_of_nat (Z.to_nat (48 + d)))
                   (transform_decimal_and_space rest)
        | None => "?"
        end
  end.

(** [float(s)] for a string [s]. *)
Definition py_float (s : string) : result float :=
  float_from_string_inner
    (if is_ascii s then s else transform_decimal_and_space (utf8_decode s)).

(* ================================================================== *)
(** ** Environment of a run *)

(** A reading of [datetime.now()]. *)
Record datetime : Type := {
  year : Z;
  month : Z;
  day : Z;
  hour : Z;
  minute : Z
}.

(** [now.strftime("%Y-%m-%d")] *)
Definition strftime_date (now : datetime) : string :=
  zfill 4 (str_of_Z (year now)) ++ "-" ++ zfill 2 (str_of_Z (month now))
  ++ "-" ++ zfill 2 (str_of_Z (day now)).

(** [now.strftime("%H:%M")] *)
Definition strftime_time (now : datetime) : string :=
  zfill 2 (str_of_Z (hour now)) ++ ":" ++ zfill 2 (str_of_Z (minute now)).

(** One record of the log, as [csv.reader] yields it and [csv.writer]
    writes it; a blank line is the empty record. *)
Definition record : Type := list string.

(** The log file [reaction_time_log.csv]: its records in file order, or
    [None] while the file does not exist. *)
Definition filesystem : Type := option (list record).

(** What a run can change: the console and the log file. *)
Record state : Type := {
  stdout : list string;
  home : string;
  log : filesystem
}.

Definition io (A : Type) : Type := state -> result A * state.

Definition ret {A : Type} (a : A) : io A := fun st => (Ok a, st).

Definition iobind {A B : Type} (c : io A) (k : A -> io B) : io B :=
  fun st =>
    match c st with
    | (Ok a, st') => k a st'
    | (Raise e, st') => (Raise e, st')
    end.

Notation "x <~ c ;; k" := (iobind c (fun x => k))
  (at level 61, c at next level, right associativity).
Notation "c ;;; k" := (iobind c (fun _ => k))
  (at level 61, right associativity).

Definition lift {A : Type} (r : result A) : io A := fun st => (r, st).

Definition print (s : string) : io unit :=
  fun st => (Ok tt, {| stdout := (stdout st ++ [s])%list; home := home st; log := log st |}).

Definition read_log : io filesystem := fun st => (Ok (log st), st).

Definition write_log (fs : filesystem) : io unit :=
  fun st => (Ok tt, {| stdout := stdout st; home := home st; log := fs |}).

(** [Path.home() / "reaction_time_log.csv"] *)
Definition filepath (st : state) : string := home st ++ "/reaction_time_log.csv".

Fixpoint for_each {A : Type} (xs : list A) (body : A -> io unit) : io unit :=
  match xs with
  | [] => ret tt
  | x :: rest => body x ;;; for_each rest body
  end.

(** [enumerate(xs, i)] *)
Fixpoint enumerate {A : Type} (xs : list A) (i : nat) : list (nat * A) :=
  match xs with
  | [] => []
  | x :: rest => (i, x) :: enumerate rest (S i)
  end.

(* ================================================================== *)
(** ** [calculate_percentile] *)

Definition calculate_percentile (rt : float) : Z * string :=
  if (rt <? 180)%float then (99, "Exceptional - faster than 99% of people")
  else if (rt <? 200)%float then (95, "Excellent - faster than 95% of people")
  else if (rt <? 230)%float then (85, "Above average")
  else if (rt <? 270)%float then (50, "Average")
  else if (rt <? 320)%float then (25, "Below average")
  else (10, "Slow - you might be tired!").

(* ================================================================== *)
(** ** [get_interpretation] *)

Definition morning_msg : string :=
  "☀️  Morning testing: cortisol levels are typically high, which can help reaction time".
Definition afternoon_msg : string :=
  "😴 Afternoon dip: this is when circadian alertness typically drops".
Definition late_night_msg : string :=
  "🌙 Late night: reduced alertness may be affecting your performance".
Definition very_consistent_msg : string :=
  "🎯 Very consistent responses - strong attentional control".
Definition normal_variability_msg : string :=
  "📊 Normal variability in responses".
Definition high_variability_msg : string :=
  "📈 High variability - might indicate fluctuating attention or fatigue".
Definition practice_msg : string :=
  "⬆️  Practice effect detected: you got faster as you warmed up".
Definition fatigue_msg : string :=
  "⬇️  Fatigue effect detected: responses slowed over trials".

(** Lines 28-35: the time-of-day effect, from the hour of the wall clock. *)
Definition time_of_day_insight (hour : Z) : list string :=
  if (6 <=? hour) && (hour <? 10) then [morning_msg]
  else if (14 <=? hour) && (hour <? 16) then [afternoon_msg]
  else if (22 <=? hour) || (hour <? 6) then [late_night_msg]
  else [].

(** Lines 39-44: the insight chosen for a variability. *)
Definition variability_insight (variability : float) : string :=
  if (variability <? 30)%float then very_consistent_msg
  else if (variability <? 60)%float then normal_variability_msg
  else high_variability_msg.

(** Line 38: [max(trial_rts) - min(trial_rts)]. *)
Definition variability_of (trial_rts : list float) : result float :=
  mx <- py_max trial_rts ;;
  mn <- py_min trial_rts ;;
  Ok (mx - mn)%float.

(** Line 47: the average of [trial_rts[:len(trial_rts)//2]]. *)
Definition first_half_avg (trial_rts : list float) : result float :=
  let half := (List.length trial_rts / 2)%nat in
  py_truediv (py_sum (firstn half trial_rts)) half.

(** Line 48: the average of [trial_rts[len(trial_rts)//2:]]. *)
Definition second_half_avg (trial_rts : list float) : result float :=
  let half := (List.length trial_rts / 2)%nat in
  py_truediv (py_sum (skipn half trial_rts)) (List.length trial_rts - half).

(** Lines 50-53: the learning effect. *)
Definition learning_insight (first_half second_half : float) : list string :=
  if (second_half <? first_half - 15)%float then [practice_msg]
  else if (first_half + 15 <? second_half)%float then [fatigue_msg]
  else [].

(** [now] is the reading of [datetime.now()] the function takes itself;
    [avg_rt] and [time_of_day] are not used by the body. *)
Definition get_interpretation (now : datetime) (avg_rt : float)
    (time_of_day : Z) (trial_rts : list float) : result (list string) :=
  let insights := time_of_day_insight (hour now) in
  variability <- variability_of trial_rts ;;
  let insights := (insights ++ [variability_insight variability])%list in
  first_half <- first_half_avg trial_rts ;;
  second_half <- second_half_avg trial_rts ;;
  let insights := (insights ++ learning_insight first_half second_half)%list in
  Ok insights.

(* ================================================================== *)
(** ** [display_histogram] *)

Definition display_histogram (results : list float) : io unit :=
  print (nl ++ "Your reaction times:") ;;;
  for_each (enumerate results 1) (fun '(i, rt) =>
    n <~ lift (py_int (rt / 20)%float) ;;
    let bars := repeat_str "█" (Z.to_nat n) in
    print ("  Trial " ++ str_of_nat i ++ ": " ++ bars ++ " "
           ++ format_fixed 0 rt ++ "ms")).

(* ================================================================== *)
(** ** [load_history] *)

(** A row of [csv.DictReader]: field name to value, in the order the
    entries are set (a later entry for a key replaces an earlier one); a
    field the record is too short for is [None]. *)
Definition dict : Type := list (string * option string).

Fixpoint zip_row (fieldnames row : list string) : dict :=
  match fieldnames, row with
  | k :: ks, v :: vs => (k, Some v) :: zip_row ks vs
  | k :: ks, [] => (k, None) :: zip_row ks []
  | [], _ => []
  end.

(** [d[key]] *)
Fixpoint dict_get (d : dict) (key : string) : result (option string) :=
  match d with
  | [] => Raise KeyError
  | (k, v) :: rest =>
      match dict_get rest key with
      | Ok w => Ok w
      | Raise _ => if String.eqb k key then Ok v else Raise KeyError
      end
  end.

Definition is_blank (r : record) : bool :=
  match r with
  | [] => true
  | _ :: _ => false
  end.

(** The rows [csv.DictReader] yields: the first record names the fields,
    blank records after it are passed over. *)
Definition DictReader (f : list record) : list dict :=
  match f with
  | [] => []
  | fieldnames :: rows =>
      map (zip_row fieldnames) (filter (fun r => negb (is_blank r)) rows)
  end.

(** [float(row["avg_rt_ms"])] *)
Definition read_average (row : dict) : result float :=
  v <- dict_get row "avg_rt_ms" ;;
  match v with
  | Some s => py_float s
  | None => Raise TypeError
  end.

(** Lines 73-80: the loop over the rows; a row whose average raises is
    passed over by the bare [except]. *)
Definition all_averages (f : list record) : list float :=
  fold_left
    (fun acc row =>
       match read_average row with
       | Ok x => (acc ++ [x])%list
       | Raise _ => acc
       end)
    (DictReader f) [].

(** [fs] is the log as [filepath.exists()] and [open] find it; the function
    only reads it. *)
Definition load_history (fs : filesystem) : option (list float) :=
  match fs with
  | None => None
  | Some f =>
      let averages := all_averages f in
      if (1 <? List.length averages)%nat
      then Some (firstn (List.length averages - 1) averages)
      else None
  end.

(* ================================================================== *)
(** ** [save_results] *)

Definition header : record :=
  ["date"; "time"; "avg_rt_ms"; "fastest_ms"; "slowest_ms"; "all_trials_ms"].

(** The six fields of a session's record. *)
Definition log_row (date time avg_rt fastest slowest all_trials : string) : record :=
  [date; time; avg_rt; fastest; slowest; all_trials].

(** [now] is the reading of [datetime.now()] taken at line 188.  The file is
    opened for appending first, so it exists (with its header) even when
    building the row raises. *)
Definition save_results (now : datetime) (results : list float)
    (avg_rt : float) : io unit :=
  fs <~ read_log ;;
  let f := match fs with
           | Some f => f
           | None => [header]
           end in
  write_log (Some f) ;;;
  fastest <~ lift (py_min results) ;;
  slowest <~ lift (py_max results) ;;
  write_log (Some (f ++ [log_row (strftime_date now) (strftime_time now)
                           (format_fixed 1 avg_rt) (format_fixed 1 fastest)
                           (format_fixed 1 slowest)
                           (join "|" (map (format_fixed 1) results))])%list) ;;;
  fun st => print (nl ++ "✓ Results saved to " ++ filepath st) st.

(* ================================================================== *)
(** ** [reaction_time_test] *)

(** What a run reads from outside: [time.time()] before and after the
    keypress of each trial (trials are numbered from 1), and the wall clock
    at its three readings. *)
Record environment : Type := {
  timer : nat -> float * float;
  now_at_call : datetime;
  now_in_analysis : datetime;
  now_at_save : datetime
}.

(** Lines 102-123: one trial. *)
Definition run_trial (env : environment) (num_trials trial : nat) : io float :=
  print (nl ++ repeat_str "─" 30) ;;;
  print ("Trial " ++ str_of_nat trial ++ " of " ++ str_of_nat num_trials) ;;;
  print "Waiting..." ;;;
  print (nl ++ ">>> GO! <<<") ;;;
  let '(start_time, end_time) := timer env trial in
  let reaction_time := ((end_time - start_time) * 1000)%float in
  (if (reaction_time <? 200)%float
   then print ("⚡ " ++ format_fixed 0 reaction_time ++ " ms - Excellent!")
   else if (reaction_time <? 270)%float
   then print ("✓  " ++ format_fixed 0 reaction_time ++ " ms - Good")
   else print ("   " ++ format_fixed 0 reaction_time ++ " ms")) ;;;
  ret reaction_time.

(** Lines 101-123: the loop, appending each reaction time to [results]. *)
Fixpoint run_trials (env : environment) (num_trials : nat) (trials : list nat)
    (results : list float) : io (list float) :=
  match trials with
  | [] => ret results
  | trial :: rest =>
      reaction_time <~ run_trial env num_trials trial ;;
      run_trials env num_trials rest (results ++ [reaction_time])%list
  end.

(** Lines 126-128: average, fastest and slowest of a session. *)
Definition session_stats (results : list float) : result (float * float * float) :=
  avg_rt <- py_truediv (py_sum results) (List.length results) ;;
  fastest <- py_min results ;;
  slowest <- py_max results ;;
  Ok (avg_rt, fastest, slowest).

(** Lines 160-165: which of the three lines the comparison prints. *)
Inductive baseline_verdict : Type :=
| Faster
| Slower
| Consistent.

Definition compare_to_baseline (diff : float) : baseline_verdict :=
  if (diff <? -10)%float then Faster
  else if (10 <? diff)%float then Slower
  else Consistent.

Definition verdict_line (diff : float) : string :=
  match compare_to_baseline diff with
  | Faster => "     Today: " ++ format_fixed 0 (abs diff) ++ " ms FASTER than usual 🎉"
  | Slower => "     Today: " ++ format_fixed 0 diff ++ " ms slower than usual"
  | Consistent => "     Today: consistent with your baseline"
  end.

(** Lines 155-165: [if history:] holds for a list that is not empty. *)
Definition compare_with_history (avg_rt : float) (history : option (list float))
    : io unit :=
  match history with
  | Some ((_ :: _) as history) =>
      personal_avg <~ lift (py_truediv (py_sum history) (List.length history)) ;;
      let diff := (avg_rt - personal_avg)%float in
      print (nl ++ "  📈 Personal history (" ++ str_of_nat (List.length history)
             ++ " previous sessions):") ;;;
      print ("     Your usual average: " ++ format_fixed 1 personal_avg ++ " ms") ;;;
      print (verdict_line diff)
  | _ => ret tt
  end.

Definition banner (title : string) : io unit :=
  print (nl ++ repeat_str "=" 50) ;;;
  print title ;;;
  print (repeat_str "=" 50).

(** Lines 125-174: everything after the trials. *)
Definition finish_session (env : environment) (results : list float)
    : io (list float) :=
  stats <~ lift (session_stats results) ;;
  let '(avg_rt, fastest, slowest) := stats in
  let '(percentile, percentile_desc) := calculate_percentile avg_rt in
  banner "📊  RESULTS" ;;;
  display_histogram results ;;;
  print (nl ++ "  Average:  " ++ format_fixed 1 avg_rt ++ " ms") ;;;
  print ("  Fastest:  " ++ format_fixed 1 fastest ++ " ms") ;;;
  print ("  Slowest:  " ++ format_fixed 1 slowest ++ " ms") ;;;
  print (nl ++ "  Percentile: " ++ str_of_Z percentile ++ "th") ;;;
  print ("  → " ++ percentile_desc) ;;;
  banner "🔬  ANALYSIS" ;;;
  insights <~ lift (get_interpretation (now_in_analysis env) avg_rt
                      (hour (now_at_call env)) results) ;;
  for_each insights (fun insight => print (nl ++ "  " ++ insight)) ;;;
  fs <~ read_log ;;
  compare_with_history avg_rt (load_history fs) ;;;
  save_results (now_at_save env) results avg_rt ;;;
  print (nl ++ repeat_str "=" 50) ;;;
  print "Test complete!" ;;;
  print (repeat_str "=" 50 ++ nl) ;;;
  ret results.

Definition reaction_time_test (env : environment) (num_trials : nat)
    : io (list float) :=
  banner "🧠  REACTION TIME TEST  🧠" ;;;
  print (nl ++ "This test measures your psychomotor vigilance—") ;;;
  print ("the speed of your brain's response to visual stimuli." ++ nl) ;;;
  print ("You'll complete " ++ str_of_nat num_trials ++ " trials.") ;;;
  print ("When you see '>>> GO! <<<', press Enter immediately." ++ nl) ;;;
  print "Press Enter when you're ready to start..." ;;;
  results <~ run_trials env num_trials (seq 1 num_trials) [] ;;
  finish_session env results.

(* ================================================================== *)
(** ** The specification's words *)

(** The percentile table of the specification: threshold, percentile and
    label of each bucket, in order; the first threshold the average is
    below wins, and [Slow] is the bucket of the rest. *)
Definition documented_buckets : list (float * (Z * string)) :=
  [ (180%float, (99, "Exceptional"));
    (200%float, (95, "Excellent"));
    (230%float, (85, "Above average"));
    (270%float, (50, "Average"));
    (320%float, (25, "Below average")) ].

Fixpoint first_match (table : list (float * (Z * string))) (v : float)
    (otherwise : Z * string) : Z * string :=
  match table with
  | [] => otherwise
  | (threshold, bucket) :: rest =>
      if (v <? threshold)%float then bucket else first_match rest v otherwise
  end.

Definition documented_bucket (v : float) : Z * string :=
  first_match documented_buckets v (10, "Slow").

(** The learning-effect sentence read literally: the practice insight
    exactly when the second half is at least 15 ms faster, the fatigue
    insight exactly when it is at least 15 ms slower. *)
Definition learning_effect_as_stated (trial_rts : list float) : Prop :=
  forall now avg_rt time_of_day,
  exists first_half second_half insights,
    first_half_avg trial_rts = Ok first_half
    /\ second_half_avg trial_rts = Ok second_half
    /\ get_interpretation now avg_rt time_of_day trial_rts = Ok insights
    /\ (In practice_msg insights <-> (second_half <=? first_half - 15)%float = true)
    /\ (In fatigue_msg insights <-> (first_half + 15 <=? second_half)%float = true).

(** The range sentence read literally: the average of a session lies
    between its fastest and its slowest trial. *)
Definition average_within_range (results : list float) : Prop :=
  forall avg_rt fastest slowest,
    session_stats results = Ok (avg_rt, fastest, slowest) ->
    (fastest <=? avg_rt)%float = true /\ (avg_rt <=? slowest)%float = true.

(** The averages stored in a log. *)
Definition stored_averages (fs : filesystem) : list float :=
  match fs with
  | Some f => all_averages f
  | None => []
  end.

(** The round-trip sentence read literally: after a session is appended,
    loading yields the averages that were stored before, and the store
    holds the session's average as its trailing entry. *)
Definition round_trip_as_stated (st : state) (now : datetime)
    (results : list float) (avg_rt : float) : Prop :=
  load_history (log (snd (save_results now results avg_rt st)))
  = Some (stored_averages (log st))
  /\ stored_averages (log (snd (save_results now results avg_rt st)))
     = (stored_averages (log st) ++ [avg_rt])%list.

(* ================================================================== *)
(** ** Notions the properties are stated with *)

(** A log this program wrote: absent, or the header followed by records. *)
Definition log_well_formed (fs : filesystem) : Prop :=
  match fs with
  | None => True
  | Some f => exists rows, f = header :: rows
  end.

(** The average a row of the log contributes: none when reading it raises. *)
Definition row_averages (row : dict) : list float :=
  match read_average row with
  | Ok x => [x]
  | Raise _ => []
  end.

(** Every binary64 value but NaN has a place on the integer line: a finite
    value counts the multiples of [2^-1074] it is made of, and the
    infinities lie beyond every finite value. *)
Definition inf_ord : Z := 2 ^ 2098.

Definition SFord (x : spec_float) : option Z :=
  match x with
  | S754_nan => None
  | S754_zero _ => Some 0
  | S754_infinity s => Some (if s then - inf_ord else inf_ord)
  | S754_finite s m e =>
      let v := Z.pos m * 2 ^ (e + 1074) in
      Some (if s then - v else v)
  end.

Definition ord (x : float) : option Z := SFord (Prim2SF x).

Definition is_finite (x : float) : bool :=
  match Prim2SF x with
  | S754_zero _ | S754_finite _ _ _ => true
  | S754_infinity _ | S754_nan => false
  end.

(** The exact value of a finite float, in units of [2^-1074]. *)
Definition units (x : float) : Z :=
  match ord x with
  | Some a => a
  | None => 0
  end.

Definition sum_units (xs : list float) : Z :=
  fold_right Z.add 0 (map units xs).

(** [avg] is the mean of [xs] with no rounding error. *)
Definition exact_mean (xs : list float) (avg : float) : Prop :=
  Z.of_nat (List.length xs) * units avg = sum_units xs.

(** Strings made of decimal digits only. *)
Fixpoint all_digits (s : string) : bool :=
  match s with
  | String c s' =>
      match digit_of_ascii c with
      | Some _ => all_digits s'
      | None => false
      end
  | EmptyString => true
  end.

Definition is_nonempty (s : string) : bool :=
  match s with
  | EmptyString => false
  | String _ _ => true
  end.

(** Strings whose last character is not a space. *)
Fixpoint last_not_space (s : string) : bool :=
  match s with
  | EmptyString => false
  | String c EmptyString => negb (is_space c)
  | String _ s' => last_not_space s'
  end.

Fixpoint last_char (s : string) : option ascii :=
  match s with
  | EmptyString => None
  | String c EmptyString => Some c
  | String _ s' => last_char s'
  end.

(* ================================================================== *)
(** ** Sample data *)

(** The session of the specification's end-to-end scenario. *)
Definition example_trials : list float := [150; 160; 155; 158; 152]%float.

(** A first session on a machine with no log yet: two trials whose average
    155.05 is not a number with one decimal. *)
Definition first_session : list float := [150; 160.1]%float.

Definition example_now : datetime :=
  {| year := 2025; month := 3; day := 7; hour := 11; minute := 5 |}.

(** A run in which every keypress comes 150 ms after the cue. *)
Definition example_env : environment :=
  {| timer := fun _ => (1000, 1000.15)%float;
     now_at_call := example_now;
     now_in_analysis := example_now;
     now_at_save := example_now |}.

(** A machine with no log yet. *)
Definition example_state : state :=
  {| stdout := []; home := "/home/user"; log := None |}.

(* ================================================================== *)
(** ** Notions for the properties of a whole run *)

(** The reaction time of trial [trial]: the time between the two readings
    of the clock, in milliseconds. *)
Definition elapsed_ms (env : environment) (trial : nat) : float :=
  let '(start_time, end_time) := timer env trial in
  ((end_time - start_time) * 1000)%float.

(** The reaction times of trials 1 to [num_trials]. *)
Definition measured_times (env : environment) (num_trials : nat) : list float :=
  map (elapsed_ms env) (seq 1 num_trials).

Definition is_nan (x : float) : bool :=
  match Prim2SF x with
  | S754_nan => true
  | _ => false
  end.

(** Every bar of the histogram has a length: [rt / 20] is finite for every
    trial. *)
Definition bars_defined (results : list float) : bool :=
  forallb (fun rt => is_finite (rt / 20)) results.

(** [lines] are the lines of the histogram for the trials [rts], numbered
    from [first]: one line per trial, with one block for every full 20 ms. *)
Definition histogram_lines_for (first : nat) (rts : list float)
    (lines : list string) : Prop :=
  List.length lines = List.length rts
  /\ forall k rt,
       nth_error rts k = Some rt ->
       exists n,
         py_int (rt / 20) = Ok n
         /\ nth_error lines k
            = Some ("  Trial " ++ str_of_nat (first + k) ++ ": "
                    ++ repeat_str "█" (Z.to_nat n) ++ " "
                    ++ format_fixed 0 rt ++ "ms").

(** [st'] has the home directory and the log of [st]. *)
Definition same_files (st st' : state) : Prop :=
  home st' = home st /\ log st' = log st.


(** What [load_history] reads back of an average [save_results] wrote. *)
Definition written_average (avg_rt : float) : float :=
  match py_float (format_fixed 1 avg_rt) with
  | Ok x => x
  | Raise _ => nan
  end.

(** Sessions saved one after the other. *)
Definition save_sessions (sessions : list (datetime * list float * float)) : io unit :=
  for_each sessions (fun '(now, results, avg_rt) => save_results now results avg_rt).

(** The state once [lines] are printed. *)
Definition printed (st : state) (lines : list string) : state :=
  {| stdout := (stdout st ++ lines)%list; home := home st; log := log st |}.

(** Lines 61-63: the body of the loop of [display_histogram]. *)
Definition histogram_row (entry : nat * float) : io unit :=
  let '(i, rt) := entry in
  n <~ lift (py_int (rt / 20)%float) ;;
  let bars := repeat_str "█" (Z.to_nat n) in
  print ("  Trial " ++ str_of_nat i ++ ": " ++ bars ++ " "
         ++ format_fixed 0 rt ++ "ms").

(* ================================================================== *)
(** * Properties *)

(** ** Binary64 comparison is comparison on the integer line *)

Module Binary64.

Lemma digits2_pos_bounds (m : positive) :
  2 ^ (Z.pos (digits2_pos m) - 1) <= Z.pos m < 2 ^ Z.pos (digits2_pos m).
Proof.
  induction m as [m IH | m IH |]; simpl digits2_pos.
  - rewrite Pos2Z.inj_succ.
    replace (Z.succ (Z.pos (digits2_pos m)) - 1) with (Z.succ (Z.pos (digits2_pos m) - 1)) by lia.
    rewrite !Z.pow_succ_r by lia. lia.
  - rewrite Pos2Z.inj_succ.
    replace (Z.succ (Z.pos (digits2_pos m)) - 1) with (Z.succ (Z.pos (digits2_pos m) - 1)) by lia.
    rewrite !Z.pow_succ_r by lia. lia.
  - simpl. lia.
Qed.

(** What validity says of a finite value: the exponent is in range, the
    mantissa has at most 53 bits, and exactly 53 above the least exponent. *)
Lemma bounded_inv (m : positive) (e : Z) :
  bounded prec emax m e = true ->
  -1074 <= e <= 971 /\ Z.pos m < 2 ^ 53 /\ (-1074 < e -> 2 ^ 52 <= Z.pos m).
Proof.
  unfold bounded, canonical_mantissa, fexp, SpecFloat.emin, prec, emax.
  intros H. apply andb_prop in H. destruct H as [Hc He].
  apply Z.eqb_eq in Hc. apply Z.leb_le in He.
  pose proof (digits2_pos_bounds m) as [Hlo Hhi].
  assert (Hd : Z.pos (digits2_pos m) <= 53) by lia.
  split; [lia|]. split.
  - eapply Z.lt_le_trans; [exact Hhi|]. apply Z.pow_le_mono_r; lia.
  - intros Hn. assert (Z.pos (digits2_pos m) = 53) as Hd53 by lia.
    rewrite Hd53 in Hlo. exact Hlo.
Qed.

(** Among valid finite values of one sign, the exponent decides and the
    mantissa breaks ties: a greater exponent means a normal value, whose
    mantissa has all its 53 bits. *)
Lemma finite_compare (m1 m2 : positive) (e1 e2 : Z) :
  bounded prec emax m1 e1 = true -> bounded prec emax m2 e2 = true ->
  match e1 ?= e2 with
  | Lt => Lt
  | Gt => Gt
  | Eq => Pos.compare_cont Eq m1 m2
  end = (Z.pos m1 * 2 ^ (e1 + 1074) ?= Z.pos m2 * 2 ^ (e2 + 1074)).
Proof.
  intros H1 H2.
  destruct (bounded_inv _ _ H1) as (He1 & Hm1 & Hn1).
  destruct (bounded_inv _ _ H2) as (He2 & Hm2 & Hn2).
  assert (Hstep : forall ma mb ea eb, -1074 <= ea -> ea < eb ->
             Z.pos ma < 2 ^ 53 -> 2 ^ 52 <= Z.pos mb ->
             Z.pos ma * 2 ^ (ea + 1074) < Z.pos mb * 2 ^ (eb + 1074)).
  { intros ma mb ea eb Ha Hab Hma Hmb.
    replace (eb + 1074) with ((ea + 1074) + 1 + (eb - ea - 1)) by lia.
    rewrite (Z.pow_add_r 2 (ea + 1074 + 1) (eb - ea - 1)) by lia.
    rewrite (Z.pow_add_r 2 (ea + 1074) 1) by lia.
    assert (0 < 2 ^ (ea + 1074)) by (apply Z.pow_pos_nonneg; lia).
    assert (2 ^ 0 <= 2 ^ (eb - ea - 1)) by (apply Z.pow_le_mono_r; lia).
    change (2 ^ 1) with 2. change (2 ^ 0) with 1 in *.
    assert (Hab' : Z.pos ma < 2 * Z.pos mb) by (change (2 ^ 53) with (2 * 2 ^ 52) in Hma; lia).
    apply Z.lt_le_trans with (2 * Z.pos mb * 2 ^ (ea + 1074)).
    - apply Z.mul_lt_mono_pos_r; assumption.
    - replace (Z.pos mb * (2 ^ (ea + 1074) * 2 * 2 ^ (eb - ea - 1)))
        with (2 * Z.pos mb * 2 ^ (ea + 1074) * 2 ^ (eb - ea - 1)) by ring.
      rewrite <- (Z.mul_1_r (2 * Z.pos mb * 2 ^ (ea + 1074))) at 1.
      apply Z.mul_le_mono_nonneg_l; [|assumption].
      apply Z.mul_nonneg_nonneg; lia. }
  destruct (Z.compare_spec e1 e2) as [Heq | Hlt | Hgt].
  - subst e2. symmetry.
    assert (0 < 2 ^ (e1 + 1074)) by (apply Z.pow_pos_nonneg; lia).
    change (Pos.compare_cont Eq m1 m2) with (Pos.compare m1 m2).
    destruct (Pos.compare_spec m1 m2) as [Hm | Hm | Hm].
    + subst m2. apply Z.compare_refl.
    + apply Z.compare_lt_iff. apply Z.mul_lt_mono_pos_r; lia.
    + apply Z.compare_gt_iff. apply Z.mul_lt_mono_pos_r; lia.
  - symmetry. apply Z.compare_lt_iff. apply Hstep; lia.
  - symmetry. apply Z.compare_gt_iff. apply Hstep; lia.
Qed.

Lemma inf_ord_pos : 0 < inf_ord.
Proof. apply Z.pow_pos_nonneg; lia. Qed.

Lemma finite_ord_pos (m : positive) (e : Z) :
  bounded prec emax m e = true -> 0 < Z.pos m * 2 ^ (e + 1074).
Proof.
  intros H. destruct (bounded_inv _ _ H) as (He & _).
  apply Z.mul_pos_pos; [lia | apply Z.pow_pos_nonneg; lia].
Qed.

Lemma finite_below_infinity (m : positive) (e : Z) :
  bounded prec emax m e = true -> Z.pos m * 2 ^ (e + 1074) < inf_ord.
Proof.
  intros H. destruct (bounded_inv _ _ H) as (He & Hm & _).
  assert (2 ^ (e + 1074) <= 2 ^ 2045) by (apply Z.pow_le_mono_r; lia).
  assert (0 < 2 ^ (e + 1074)) by (apply Z.pow_pos_nonneg; lia).
  unfold inf_ord.
  replace (2 ^ 2098) with (2 ^ 53 * 2 ^ 2045) by (rewrite <- Z.pow_add_r by lia; reflexivity).
  apply Z.lt_le_trans with (2 ^ 53 * 2 ^ (e + 1074)).
  - apply Z.mul_lt_mono_pos_r; assumption.
  - apply Z.mul_le_mono_nonneg_l; [lia | assumption].
Qed.

Ltac cmp_solve :=
  f_equal; symmetry;
  first [ apply Z.compare_eq_iff; lia
        | apply Z.compare_lt_iff; lia
        | apply Z.compare_gt_iff; lia ].

(** The comparison of the IEEE specification is the comparison of places
    on the integer line. *)
Lemma SFcompare_ord (x y : spec_float) :
  valid_binary x = true -> valid_binary y = true ->
  SFcompare x y =
  match SFord x, SFord y with
  | Some a, Some b => Some (a ?= b)
  | _, _ => None
  end.
Proof.
  intros Hx Hy. pose proof inf_ord_pos as Hbig.
  destruct x as [sx | sx | | sx mx ex], y as [sy | sy | | sy my ey];
    unfold valid_binary, SpecFloat.valid_binary, SFcompare, SFord in *;
    cbv beta iota zeta in *; try reflexivity.
  all: try pose proof (finite_below_infinity _ _ Hx).
  all: try pose proof (finite_below_infinity _ _ Hy).
  all: try pose proof (finite_ord_pos _ _ Hx).
  all: try pose proof (finite_ord_pos _ _ Hy).
  all: repeat match goal with s : bool |- _ => destruct s end.
  all: try cmp_solve.
  - f_equal. rewrite Z.compare_opp.
    rewrite <- (finite_compare _ _ _ _ Hy Hx).
    rewrite (Z.compare_antisym ey ex).
    destruct (ey ?= ex); simpl; try reflexivity.
    rewrite Pos.compare_cont_antisym. reflexivity.
  - f_equal. exact (finite_compare _ _ _ _ Hx Hy).
Qed.

Lemma ltb_ord (x y : float) :
  (x <? y)%float =
  match ord x, ord y with
  | Some a, Some b => a <? b
  | _, _ => false
  end.
Proof.
  rewrite ltb_spec. unfold SFltb, ord.
  rewrite (SFcompare_ord _ _ (Prim2SF_valid x) (Prim2SF_valid y)).
  destruct (SFord (Prim2SF x)) as [a|], (SFord (Prim2SF y)) as [b|];
    reflexivity.
Qed.

Lemma leb_ord (x y : float) :
  (x <=? y)%float =
  match ord x, ord y with
  | Some a, Some b => a <=? b
  | _, _ => false
  end.
Proof.
  rewrite leb_spec. unfold SFleb, ord.
  rewrite (SFcompare_ord _ _ (Prim2SF_valid x) (Prim2SF_valid y)).
  destruct (SFord (Prim2SF x)) as [a|], (SFord (Prim2SF y)) as [b|];
    reflexivity.
Qed.

(** Turns every float comparison in sight into an integer one. *)
Ltac float_order :=
  rewrite ?ltb_ord, ?leb_ord in *;
  repeat match goal with
         | H : context [match ord ?x with _ => _ end] |- _ =>
             destruct (ord x); try discriminate
         | |- context [match ord ?x with _ => _ end] =>
             destruct (ord x); try discriminate
         end;
  repeat match goal with
         | H : (_ <? _) = true |- _ => apply Z.ltb_lt in H
         | H : (_ <? _) = false |- _ => apply Z.ltb_ge in H
         | H : (_ <=? _) = true |- _ => apply Z.leb_le in H
         | H : (_ <=? _) = false |- _ => apply Z.leb_gt in H
         end;
  try reflexivity;
  first [ apply Z.ltb_lt | apply Z.ltb_ge | apply Z.leb_le | apply Z.leb_gt
        | idtac ];
  try lia.

Lemma float_le_not_lt (x y : float) :
  (y <=? x)%float = true -> (x <? y)%float = false.
Proof. intros H. float_order. Qed.

Lemma float_lt_not_lt (x y : float) :
  (x <? y)%float = true -> (y <? x)%float = false.
Proof. intros H. float_order. Qed.

Lemma float_lt_le_trans (x y z : float) :
  (x <? y)%float = true -> (y <=? z)%float = true -> (x <? z)%float = true.
Proof. intros H1 H2. float_order. Qed.

Lemma float_lt_trans (x y z : float) :
  (x <? y)%float = true -> (y <? z)%float = true -> (x <? z)%float = true.
Proof. intros H1 H2. float_order. Qed.

End Binary64.

Import Binary64.

(* ================================================================== *)
(** ** Percentile buckets *)

(** C2. For every average [v], [calculate_percentile] returns the first
    bucket of the documented table whose threshold [v] is strictly below
    (the percentile of that bucket and a description that starts with its
    label), and the "Slow" bucket when there is none.  Read as intervals:
    below 180 is the 99th percentile, from 180 and below 200 the 95th, and so
    on; 179.9 and 180.0, 199.9 and 200.0 fall in adjacent buckets. *)
Theorem calculate_percentile_first_match :
  (forall v,
     fst (calculate_percentile v) = fst (documented_bucket v)
     /\ prefix (snd (documented_bucket v)) (snd (calculate_percentile v)) = true)
  /\ (forall v, (v <? 180)%float = true ->
        calculate_percentile v = (99, "Exceptional - faster than 99% of people"))
  /\ (forall v, (180 <=? v)%float = true -> (v <? 200)%float = true ->
        calculate_percentile v = (95, "Excellent - faster than 95% of people"))
  /\ (forall v, (200 <=? v)%float = true -> (v <? 230)%float = true ->
        calculate_percentile v = (85, "Above average"))
  /\ (forall v, (230 <=? v)%float = true -> (v <? 270)%float = true ->
        calculate_percentile v = (50, "Average"))
  /\ (forall v, (270 <=? v)%float = true -> (v <? 320)%float = true ->
        calculate_percentile v = (25, "Below average"))
  /\ (forall v, (320 <=? v)%float = true ->
        calculate_percentile v = (10, "Slow - you might be tired!"))
  /\ calculate_percentile 179.9 = (99, "Exceptional - faster than 99% of people")
  /\ calculate_percentile 180 = (95, "Excellent - faster than 95% of people")
  /\ calculate_percentile 199.9 = (95, "Excellent - faster than 95% of people")
  /\ calculate_percentile 200 = (85, "Above average").
Proof.
  assert (Hge : forall a b v : float,
             (a <=? b)%float = true -> (b <=? v)%float = true ->
             (v <? a)%float = false).
  { intros a b v Hab Hbv. float_order. }
  split.
  { intros v. unfold calculate_percentile, documented_bucket, documented_buckets.
    cbn [first_match].
    destruct (v <? 180)%float; [split; reflexivity|].
    destruct (v <? 200)%float; [split; reflexivity|].
    destruct (v <? 230)%float; [split; reflexivity|].
    destruct (v <? 270)%float; [split; reflexivity|].
    destruct (v <? 320)%float; split; reflexivity. }
  repeat split; try (vm_compute; reflexivity).
  - intros v H. unfold calculate_percentile. rewrite H. reflexivity.
  - intros v Hlo Hhi. unfold calculate_percentile.
    rewrite (float_le_not_lt _ _ Hlo), Hhi. reflexivity.
  - intros v Hlo Hhi. unfold calculate_percentile.
    rewrite (Hge 180%float 200%float v), (float_le_not_lt _ _ Hlo), Hhi
      by (assumption || reflexivity).
    reflexivity.
  - intros v Hlo Hhi. unfold calculate_percentile.
    rewrite (Hge 180%float 230%float v), (Hge 200%float 230%float v),
      (float_le_not_lt _ _ Hlo), Hhi by (assumption || reflexivity).
    reflexivity.
  - intros v Hlo Hhi. unfold calculate_percentile.
    rewrite (Hge 180%float 270%float v), (Hge 200%float 270%float v),
      (Hge 230%float 270%float v), (float_le_not_lt _ _ Hlo), Hhi
      by (assumption || reflexivity).
    reflexivity.
  - intros v Hlo. unfold calculate_percentile.
    rewrite (Hge 180%float 320%float v), (Hge 200%float 320%float v),
      (Hge 230%float 320%float v), (Hge 270%float 320%float v),
      (float_le_not_lt _ _ Hlo) by (assumption || reflexivity).
    reflexivity.
Qed.

(* ================================================================== *)
(** ** Interpretation of a session *)

Lemma py_max_nonempty (xs : list float) :
  xs <> [] -> exists m, py_max xs = Ok m.
Proof. destruct xs as [|x rest]; [congruence | intros _; eexists; reflexivity]. Qed.

Lemma py_min_nonempty (xs : list float) :
  xs <> [] -> exists m, py_min xs = Ok m.
Proof. destruct xs as [|x rest]; [congruence | intros _; eexists; reflexivity]. Qed.

Lemma py_truediv_pos (x : float) (n : nat) :
  (0 < n)%nat -> py_truediv x n = Ok (x / float_of_int (Z.of_nat n))%float.
Proof. destruct n; [lia | reflexivity]. Qed.




Lemma get_interpretation_unfold (now : datetime) (avg_rt : float) (tod : Z)
    (trial_rts : list float) (variability first_half second_half : float) :
  variability_of trial_rts = Ok variability ->
  first_half_avg trial_rts = Ok first_half ->
  second_half_avg trial_rts = Ok second_half ->
  get_interpretation now avg_rt tod trial_rts =
  Ok (time_of_day_insight (hour now) ++ [variability_insight variability]
      ++ learning_insight first_half second_half)%list.
Proof.
  intros Hv Hf Hs. unfold get_interpretation.
  rewrite Hv. cbn [bind]. rewrite Hf. cbn [bind]. rewrite Hs. cbn [bind].
  rewrite <- app_assoc. reflexivity.
Qed.

Lemma time_of_day_insight_cases (h : Z) :
  time_of_day_insight h = [] \/ time_of_day_insight h = [morning_msg]
  \/ time_of_day_insight h = [afternoon_msg]
  \/ time_of_day_insight h = [late_night_msg].
Proof.
  unfold time_of_day_insight.
  destruct ((6 <=? h) && (h <? 10)); [auto|].
  destruct ((14 <=? h) && (h <? 16)); [auto|].
  destruct ((22 <=? h) || (h <? 6)); auto.
Qed.

Lemma variability_insight_cases (v : float) :
  variability_insight v = very_consistent_msg
  \/ variability_insight v = normal_variability_msg
  \/ variability_insight v = high_variability_msg.
Proof.
  unfold variability_insight.
  destruct (v <? 30)%float; [auto|]. destruct (v <? 60)%float; auto.
Qed.

Lemma learning_insight_cases (first_half second_half : float) :
  learning_insight first_half second_half = []
  \/ learning_insight first_half second_half = [practice_msg]
  \/ learning_insight first_half second_half = [fatigue_msg].
Proof.
  unfold learning_insight.
  destruct (second_half <? first_half - 15)%float; [auto|].
  destruct (first_half + 15 <? second_half)%float; auto.
Qed.



(* ================================================================== *)
(** ** Comparison with the personal baseline *)

Lemma is_nonempty_app_r (a b : string) :
  is_nonempty b = true -> is_nonempty (a ++ b) = true.
Proof. destruct a; [auto | reflexivity]. Qed.

Lemma last_char_app (a b : string) :
  is_nonempty b = true -> last_char (a ++ b) = last_char b.
Proof.
  intros Hb. induction a as [|c a IH]; cbn [append]; [reflexivity|].
  cbn [last_char]. destruct (a ++ b) eqn:Hab.
  - destruct a; cbn in Hab; [subst b; discriminate Hb | discriminate Hab].
  - exact IH.
Qed.

(** The three lines the comparison can end with are told apart by their
    last character, whatever number they carry. *)
Lemma verdict_texts_distinct (x y : string) :
  "     Today: " ++ x ++ " ms FASTER than usual 🎉"
  <> "     Today: " ++ y ++ " ms slower than usual"
  /\ "     Today: " ++ x ++ " ms FASTER than usual 🎉"
     <> "     Today: consistent with your baseline"
  /\ "     Today: " ++ y ++ " ms slower than usual"
     <> "     Today: consistent with your baseline".
Proof.
  assert (Hf : last_char ("     Today: " ++ x ++ " ms FASTER than usual 🎉")
               = last_char "🎉").
  { rewrite !last_char_app by (repeat apply is_nonempty_app_r; reflexivity).
    reflexivity. }
  assert (Hs : last_char ("     Today: " ++ y ++ " ms slower than usual")
               = Some "l"%char).
  { rewrite !last_char_app by (repeat apply is_nonempty_app_r; reflexivity).
    reflexivity. }
  repeat split; intros H; apply (f_equal last_char) in H.
  - rewrite Hf, Hs in H. discriminate H.
  - rewrite Hf in H. discriminate H.
  - rewrite Hs in H. discriminate H.
Qed.

(** The text of the verdict, case by case. *)
Lemma verdict_line_text (diff : float) :
  ((diff <? -10)%float = true ->
   verdict_line diff
   = "     Today: " ++ format_fixed 0 (abs diff) ++ " ms FASTER than usual 🎉")
  /\ ((diff <? -10)%float = false -> (10 <? diff)%float = true ->
      verdict_line diff
      = "     Today: " ++ format_fixed 0 diff ++ " ms slower than usual")
  /\ ((diff <? -10)%float = false -> (10 <? diff)%float = false ->
      verdict_line diff = "     Today: consistent with your baseline").
Proof.
  unfold verdict_line, compare_to_baseline.
  repeat split; intros; repeat match goal with H : _ = _ |- _ => rewrite H end;
    reflexivity.
Qed.

Lemma faster_not_slower (diff : float) :
  (10 <? diff)%float = true -> (diff <? -10)%float = false.
Proof.
  intros H. assert (H0 : (-10 <? 10)%float = true) by reflexivity. float_order.
Qed.

(** C8. With a history at hand the run prints the comparison of today's
    average with the mean of the history, and the line it ends with flags
    the session as slower exactly when the difference is greater than 10, as
    faster exactly when it is less than -10, and as consistent with the
    baseline otherwise. *)
Theorem baseline_comparison_thresholds (avg_rt : float) (history : list float)
    (st : state) :
  history <> [] ->
  exists personal_avg diff line,
    py_truediv (py_sum history) (List.length history) = Ok personal_avg
    /\ diff = (avg_rt - personal_avg)%float
    /\ compare_with_history avg_rt (Some history) st =
       (Ok tt,
        {| stdout :=
             (stdout st
              ++ [(nl ++ "  📈 Personal history ("
                   ++ str_of_nat (List.length history)
                   ++ " previous sessions):")%string;
                  ("     Your usual average: " ++ format_fixed 1 personal_avg
                   ++ " ms")%string;
                  line])%list;
           home := home st;
           log := log st |})
    /\ line = verdict_line diff
    /\ (line = "     Today: " ++ format_fixed 0 diff ++ " ms slower than usual"
        <-> (10 <? diff)%float = true)
    /\ (line = "     Today: " ++ format_fixed 0 (abs diff) ++ " ms FASTER than usual 🎉"
        <-> (diff <? -10)%float = true)
    /\ (line = "     Today: consistent with your baseline"
        <-> (10 <? diff)%float = false /\ (diff <? -10)%float = false)
    /\ (compare_to_baseline diff = Slower <-> (10 <? diff)%float = true)
    /\ (compare_to_baseline diff = Faster <-> (diff <? -10)%float = true)
    /\ (compare_to_baseline diff = Consistent <->
        (10 <? diff)%float = false /\ (diff <? -10)%float = false).
Proof.
  intros Hne. destruct history as [|h rest]; [congruence|].
  eexists. eexists. eexists. split; [reflexivity|]. split; [reflexivity|].
  split.
  { unfold compare_with_history, iobind, lift, print.
    cbn [py_truediv List.length stdout home log].
    rewrite <- !app_assoc. reflexivity. }
  set (diff := (avg_rt - _)%float). clearbody diff.
  split; [reflexivity|].
  pose proof (faster_not_slower diff) as Hexcl.
  destruct (verdict_line_text diff) as (Hfast & Hslow & Hsame).
  destruct (verdict_texts_distinct (format_fixed 0 (abs diff)) (format_fixed 0 diff))
    as (Hfs & Hfc & Hsc).
  unfold compare_to_baseline.
  destruct (diff <? -10)%float eqn:Hf, (10 <? diff)%float eqn:Hs;
    try (specialize (Hexcl eq_refl); discriminate).
  - rewrite (Hfast eq_refl).
    repeat split; intros; try discriminate; try reflexivity;
      try (exfalso; auto; fail);
      match goal with H : _ /\ _ |- _ => destruct H; discriminate end.
  - rewrite (Hslow eq_refl eq_refl).
    repeat split; intros; try discriminate; try reflexivity;
      try (exfalso; auto; fail);
      try (exfalso; apply Hfs; symmetry; assumption);
      match goal with H : _ /\ _ |- _ => destruct H; discriminate end.
  - rewrite (Hsame eq_refl eq_refl).
    repeat split; intros; try discriminate; try reflexivity;
      try (exfalso; apply Hsc; symmetry; assumption);
      try (exfalso; apply Hfc; symmetry; assumption).
Qed.

Lemma baseline_comparison_thresholds_witness :
  [150; 160]%float <> []
  /\ exists personal_avg diff line,
    py_truediv (py_sum [150; 160]%float) (List.length [150; 160]%float)
    = Ok personal_avg
    /\ diff = (155 - personal_avg)%float
    /\ compare_with_history 155 (Some [150; 160]%float) example_state =
       (Ok tt,
        {| stdout :=
             (stdout example_state
              ++ [(nl ++ "  📈 Personal history ("
                   ++ str_of_nat (List.length [150; 160]%float)
                   ++ " previous sessions):")%string;
                  ("     Your usual average: " ++ format_fixed 1 personal_avg
                   ++ " ms")%string;
                  line])%list;
           home := home example_state;
           log := log example_state |})
    /\ line = verdict_line diff
    /\ (line = "     Today: " ++ format_fixed 0 diff ++ " ms slower than usual"
        <-> (10 <? diff)%float = true)
    /\ (line = "     Today: " ++ format_fixed 0 (abs diff) ++ " ms FASTER than usual 🎉"
        <-> (diff <? -10)%float = true)
    /\ (line = "     Today: consistent with your baseline"
        <-> (10 <? diff)%float = false /\ (diff <? -10)%float = false)
    /\ (compare_to_baseline diff = Slower <-> (10 <? diff)%float = true)
    /\ (compare_to_baseline diff = Faster <-> (diff <? -10)%float = true)
    /\ (compare_to_baseline diff = Consistent <->
        (10 <? diff)%float = false /\ (diff <? -10)%float = false).
Proof.
  split; [discriminate|].
  apply (baseline_comparison_thresholds 155 [150; 160]%float example_state).
  discriminate.
Defined.

(* ================================================================== *)
(** ** Practice and fatigue *)

Lemma learning_insight_membership (msg : string) (h : Z) (v : float)
    (learning : list string) :
  msg = practice_msg \/ msg = fatigue_msg ->
  In msg (time_of_day_insight h ++ [variability_insight v] ++ learning)%list
  <-> In msg learning.
Proof.
  intros Hmsg. rewrite !in_app_iff. split; [|tauto].
  intros [Hin | [Hin | Hin]]; [exfalso | exfalso | exact Hin].
  - unfold time_of_day_insight in Hin.
    destruct ((6 <=? h) && (h <? 10)), ((14 <=? h) && (h <? 16)),
      ((22 <=? h) || (h <? 6));
      cbn [In] in Hin; try contradiction;
      destruct Hin as [Heq | []], Hmsg as [-> | ->]; discriminate Heq.
  - unfold variability_insight in Hin.
    destruct (v <? 30)%float, (v <? 60)%float;
      destruct Hin as [Heq | []], Hmsg as [-> | ->]; discriminate Heq.
Qed.

Lemma half_lengths (n : nat) :
  (2 <= n -> 0 < n / 2 /\ 0 < n - n / 2 /\ n - n / 2 = n / 2 + n mod 2)%nat.
Proof.
  intros Hn. pose proof (Nat.div_mod_eq n 2) as Hdm.
  pose proof (Nat.mod_upper_bound n 2 ltac:(lia)) as Hmod.
  assert (1 <= n / 2)%nat by (apply (Nat.div_le_lower_bound n 2 1); lia).
  lia.
Qed.

Lemma halves_have_averages (trial_rts : list float) :
  (2 <= List.length trial_rts)%nat ->
  first_half_avg trial_rts
  = Ok (py_sum (firstn (List.length trial_rts / 2) trial_rts)
        / float_of_int (Z.of_nat (List.length trial_rts / 2)))%float
  /\ second_half_avg trial_rts
     = Ok (py_sum (skipn (List.length trial_rts / 2) trial_rts)
           / float_of_int
               (Z.of_nat (List.length trial_rts - List.length trial_rts / 2)))%float
  /\ exists variability, variability_of trial_rts = Ok variability.
Proof.
  intros Hlen. destruct (half_lengths _ Hlen) as (Hh & Hr & _).
  split; [apply py_truediv_pos; exact Hh|].
  split; [apply py_truediv_pos; exact Hr|].
  destruct (py_max_nonempty trial_rts) as [mx Hmx].
  { intros ->. simpl in Hlen. lia. }
  destruct (py_min_nonempty trial_rts) as [mn Hmn].
  { intros ->. simpl in Hlen. lia. }
  exists (mx - mn)%float. unfold variability_of. rewrite Hmx, Hmn. reflexivity.
Qed.

(** C1 (amended). For every trial sequence of length at least 2 the
    sequence is split into its first [floor(n/2)] trials and the remaining
    ones (one more on odd counts), both halves have an average, and
    [get_interpretation] emits the practice insight exactly when the
    second-half average is strictly below the first-half average minus 15,
    otherwise the fatigue insight exactly when it is strictly above the
    first-half average plus 15, and neither otherwise. *)
Theorem learning_effect_strict (now : datetime) (avg_rt : float)
    (time_of_day : Z) (trial_rts : list float) :
  (2 <= List.length trial_rts)%nat ->
  exists half first_half second_half insights,
    half = (List.length trial_rts / 2)%nat
    /\ trial_rts = (firstn half trial_rts ++ skipn half trial_rts)%list
    /\ List.length (firstn half trial_rts) = half
    /\ List.length (skipn half trial_rts) = (half + List.length trial_rts mod 2)%nat
    /\ first_half = (py_sum (firstn half trial_rts)
                     / float_of_int (Z.of_nat half))%float
    /\ second_half = (py_sum (skipn half trial_rts)
                      / float_of_int (Z.of_nat (List.length trial_rts - half)))%float
    /\ first_half_avg trial_rts = Ok first_half
    /\ second_half_avg trial_rts = Ok second_half
    /\ get_interpretation now avg_rt time_of_day trial_rts = Ok insights
    /\ (In practice_msg insights <->
        (second_half <? first_half - 15)%float = true)
    /\ (In fatigue_msg insights <->
        (second_half <? first_half - 15)%float = false
        /\ (first_half + 15 <? second_half)%float = true)
    /\ (~ In practice_msg insights /\ ~ In fatigue_msg insights <->
        (second_half <? first_half - 15)%float = false
        /\ (first_half + 15 <? second_half)%float = false).
Proof.
  intros Hlen.
  destruct (half_lengths _ Hlen) as (Hh & Hr & Hsplit).
  destruct (halves_have_averages _ Hlen) as (Hfirst & Hsecond & variability & Hvar).
  set (half := (List.length trial_rts / 2)%nat) in *.
  eexists half, _, _, _.
  split; [reflexivity|].
  split; [symmetry; apply firstn_skipn|].
  split; [apply firstn_length_le; subst half; apply Nat.Div0.div_le_upper_bound; lia|].
  split; [rewrite length_skipn; exact Hsplit|].
  split; [reflexivity|]. split; [reflexivity|].
  split; [exact Hfirst|]. split; [exact Hsecond|].
  split; [exact (get_interpretation_unfold _ _ _ _ _ _ _ Hvar Hfirst Hsecond)|].
  rewrite !learning_insight_membership by auto.
  unfold learning_insight.
  set (fh := (py_sum (firstn half trial_rts) / _)%float).
  set (sh := (py_sum (skipn half trial_rts) / _)%float).
  destruct (sh <? fh - 15)%float, (fh + 15 <? sh)%float; cbn [In];
    intuition (try discriminate; try congruence).
Qed.

Lemma learning_effect_strict_witness :
  (2 <= List.length example_trials)%nat
  /\ exists half first_half second_half insights,
    half = (List.length example_trials / 2)%nat
    /\ example_trials = (firstn half example_trials ++ skipn half example_trials)%list
    /\ List.length (firstn half example_trials) = half
    /\ List.length (skipn half example_trials)
       = (half + List.length example_trials mod 2)%nat
    /\ first_half = (py_sum (firstn half example_trials)
                     / float_of_int (Z.of_nat half))%float
    /\ second_half = (py_sum (skipn half example_trials)
                      / float_of_int (Z.of_nat (List.length example_trials - half)))%float
    /\ first_half_avg example_trials = Ok first_half
    /\ second_half_avg example_trials = Ok second_half
    /\ get_interpretation example_now 155 11 example_trials = Ok insights
    /\ (In practice_msg insights <->
        (second_half <? first_half - 15)%float = true)
    /\ (In fatigue_msg insights <->
        (second_half <? first_half - 15)%float = false
        /\ (first_half + 15 <? second_half)%float = true)
    /\ (~ In practice_msg insights /\ ~ In fatigue_msg insights <->
        (second_half <? first_half - 15)%float = false
        /\ (first_half + 15 <? second_half)%float = false).
Proof.
  split; [simpl; lia|].
  apply (learning_effect_strict example_now 155 11 example_trials).
  simpl. lia.
Defined.

(** C1 (counterexample). On the two trials 100 ms and 85 ms the second half
    is exactly 15 ms faster than the first, and no practice insight is
    emitted: read with "at least 15 ms" the claim fails. *)
Lemma learning_effect_boundary_counterexample :
  ~ learning_effect_as_stated [100; 85]%float.
Proof.
  intros Hclaim.
  destruct (Hclaim example_now 0%float 0)
    as (fh & sh & insights & Hf & Hs & Hget & Hpractice & _).
  vm_compute in Hf. injection Hf as <-.
  vm_compute in Hs. injection Hs as <-.
  assert (Hin : In practice_msg insights) by (apply Hpractice; reflexivity).
  assert (Hins : insights = [very_consistent_msg]).
  { vm_compute in Hget. injection Hget as <-. reflexivity. }
  rewrite Hins in Hin. destruct Hin as [Heq | []]. discriminate Heq.
Qed.

(* ================================================================== *)
(** ** The end-to-end scenario *)

(** C6. On the trials 150, 160, 155, 158, 152 ms the average is 155.0, the
    percentile bucket is the 99th ("Exceptional"), the variability is 10 and
    gives "very consistent", and the halves (150, 160) and (155, 158, 152)
    both average 155.0, so that no practice or fatigue insight is emitted. *)
Theorem end_to_end_example :
  session_stats example_trials = Ok (155, 150, 160)%float
  /\ calculate_percentile 155 = (99, "Exceptional - faster than 99% of people")
  /\ variability_of example_trials = Ok 10%float
  /\ variability_insight 10 = very_consistent_msg
  /\ firstn (List.length example_trials / 2) example_trials = [150; 160]%float
  /\ skipn (List.length example_trials / 2) example_trials = [155; 158; 152]%float
  /\ first_half_avg example_trials = Ok 155%float
  /\ second_half_avg example_trials = Ok 155%float
  /\ learning_insight 155 155 = []
  /\ (forall now avg_rt time_of_day,
        get_interpretation now avg_rt time_of_day example_trials
        = Ok (time_of_day_insight (hour now) ++ [very_consistent_msg])%list)
  /\ (forall now avg_rt time_of_day insights,
        get_interpretation now avg_rt time_of_day example_trials = Ok insights ->
        In very_consistent_msg insights
        /\ ~ In practice_msg insights /\ ~ In fatigue_msg insights).
Proof.
  assert (Hvar : variability_of example_trials = Ok 10%float) by reflexivity.
  assert (Hf : first_half_avg example_trials = Ok 155%float) by reflexivity.
  assert (Hs : second_half_avg example_trials = Ok 155%float) by reflexivity.
  assert (Hget : forall now avg_rt time_of_day,
             get_interpretation now avg_rt time_of_day example_trials
             = Ok (time_of_day_insight (hour now) ++ [very_consistent_msg])%list).
  { intros. rewrite (get_interpretation_unfold _ _ _ _ _ _ _ Hvar Hf Hs).
    reflexivity. }
  do 9 (split; [reflexivity|]). split; [exact Hget|].
  intros now avg_rt time_of_day insights Hins.
  rewrite Hget in Hins. injection Hins as <-.
  split; [apply in_or_app; right; left; reflexivity|].
  change [very_consistent_msg] with ([variability_insight 10] ++ [])%list.
  rewrite !learning_insight_membership by auto.
  split; intros [].
Qed.

(* ================================================================== *)
(** ** A session of a single trial *)

Lemma get_interpretation_total_iff (now : datetime) (avg_rt : float)
    (time_of_day : Z) (trial_rts : list float) :
  (exists insights, get_interpretation now avg_rt time_of_day trial_rts = Ok insights)
  <-> (2 <= List.length trial_rts)%nat.
Proof.
  split.
  - intros [insights Hget].
    destruct trial_rts as [|x [|y rest]]; [discriminate Hget | discriminate Hget |].
    simpl. lia.
  - intros Hlen.
    destruct (halves_have_averages _ Hlen) as (Hfirst & Hsecond & variability & Hvar).
    eexists. exact (get_interpretation_unfold _ _ _ _ _ _ _ Hvar Hfirst Hsecond).
Qed.

Lemma finish_session_single_trial (env : environment) (x : float) (st : state) :
  exists e, fst (finish_session env [x] st) = Raise e.
Proof.
  unfold finish_session, iobind, lift, banner, display_histogram, print, ret.
  cbn [session_stats py_truediv py_sum py_min py_max fold_left List.length bind
       enumerate for_each].
  destruct (calculate_percentile _) as [percentile desc].
  unfold iobind, lift, print, ret. cbn [stdout home log].
  destruct (py_int (x / 20)) as [n | e].
  - exists ZeroDivisionError. reflexivity.
  - exists e. reflexivity.
Qed.

Lemma run_trials_single (env : environment) (st : state) :
  exists x st', run_trials env 1 (seq 1 1) [] st = (Ok [x], st').
Proof.
  unfold run_trials, run_trial, iobind, print, ret. cbn [seq].
  destruct (timer env 1%nat) as [start_time end_time].
  unfold iobind, print, ret.
  destruct (_ <? 200)%float; [|destruct (_ <? 270)%float];
    eexists; eexists; reflexivity.
Qed.

(** C9. [get_interpretation] returns insights exactly for sequences of at
    least 2 trials.  For a single trial the first half is empty, its average
    divides by [floor(1/2) = 0] and raises [ZeroDivisionError]; a session
    of one trial has statistics, so a run of one trial reaches that failure
    and ends in an error. *)
Theorem single_trial_division_by_zero :
  (forall x, first_half_avg [x] = Raise ZeroDivisionError)
  /\ (forall now avg_rt time_of_day x,
        get_interpretation now avg_rt time_of_day [x] = Raise ZeroDivisionError)
  /\ (forall now avg_rt time_of_day trial_rts,
        (exists insights,
            get_interpretation now avg_rt time_of_day trial_rts = Ok insights)
        <-> (2 <= List.length trial_rts)%nat)
  /\ (forall x, exists avg_rt, session_stats [x] = Ok (avg_rt, x, x))
  /\ (forall env st, exists e, fst (reaction_time_test env 1 st) = Raise e)
  /\ fst (reaction_time_test example_env 1 example_state) = Raise ZeroDivisionError.
Proof.
  split; [reflexivity|]. split; [reflexivity|].
  split; [apply get_interpretation_total_iff|].
  split; [intros x; eexists; reflexivity|].
  split; [|vm_compute; reflexivity].
  intros env st. unfold reaction_time_test, banner, iobind, print.
  cbn [stdout home log].
  match goal with
  | |- context [run_trials env 1 (seq 1 1) [] ?s] =>
      destruct (run_trials_single env s) as (x & st' & Hrun); rewrite Hrun
  end.
  apply finish_session_single_trial.
Qed.

(* ================================================================== *)
(** ** Average, fastest and slowest *)

Lemma ord_finite (x : float) : is_finite x = true -> ord x = Some (units x).
Proof.
  unfold is_finite, units, ord.
  destruct (Prim2SF x); intros H; try discriminate H; reflexivity.
Qed.

Lemma ltb_units (x y : float) :
  is_finite x = true -> is_finite y = true ->
  (x <? y)%float = (units x <? units y).
Proof.
  intros Hx Hy. rewrite ltb_ord, (ord_finite _ Hx), (ord_finite _ Hy). reflexivity.
Qed.

Lemma leb_units (x y : float) :
  is_finite x = true -> is_finite y = true ->
  (x <=? y)%float = (units x <=? units y).
Proof.
  intros Hx Hy. rewrite leb_ord, (ord_finite _ Hx), (ord_finite _ Hy). reflexivity.
Qed.

Lemma fold_min_spec (rest : list float) :
  forall m,
    is_finite m = true -> forallb is_finite rest = true ->
    let r := fold_left (fun m y => if (y <? m)%float then y else m) rest m in
    is_finite r = true /\ In r (m :: rest) /\ units r <= units m
    /\ Forall (fun y => units r <= units y) rest.
Proof.
  induction rest as [|y rest IH]; intros m Hm Hrest; cbn [fold_left].
  - repeat split; auto; [left; reflexivity | lia].
  - cbn [forallb] in Hrest. apply andb_prop in Hrest. destruct Hrest as [Hy Hrest].
    rewrite (ltb_units _ _ Hy Hm).
    destruct (Z.ltb_spec (units y) (units m)) as [Hlt | Hge].
    + destruct (IH y Hy Hrest) as (Hf & Hin & Hle & Hall).
      repeat split; auto; [right; exact Hin | lia].
    + destruct (IH m Hm Hrest) as (Hf & Hin & Hle & Hall).
      repeat split; auto.
      * destruct Hin as [<- | Hin]; [left; reflexivity | right; right; exact Hin].
      * constructor; [lia | exact Hall].
Qed.

Lemma fold_max_spec (rest : list float) :
  forall m,
    is_finite m = true -> forallb is_finite rest = true ->
    let r := fold_left (fun m y => if (m <? y)%float then y else m) rest m in
    is_finite r = true /\ In r (m :: rest) /\ units m <= units r
    /\ Forall (fun y => units y <= units r) rest.
Proof.
  induction rest as [|y rest IH]; intros m Hm Hrest; cbn [fold_left].
  - repeat split; auto; [left; reflexivity | lia].
  - cbn [forallb] in Hrest. apply andb_prop in Hrest. destruct Hrest as [Hy Hrest].
    rewrite (ltb_units _ _ Hm Hy).
    destruct (Z.ltb_spec (units m) (units y)) as [Hlt | Hge].
    + destruct (IH y Hy Hrest) as (Hf & Hin & Hle & Hall).
      repeat split; auto; [right; exact Hin | lia].
    + destruct (IH m Hm Hrest) as (Hf & Hin & Hle & Hall).
      repeat split; auto.
      * destruct Hin as [<- | Hin]; [left; reflexivity | right; right; exact Hin].
      * constructor; [lia | exact Hall].
Qed.

Lemma sum_units_lower (lo : Z) (xs : list float) :
  Forall (fun y => lo <= units y) xs ->
  Z.of_nat (List.length xs) * lo <= sum_units xs.
Proof.
  unfold sum_units. induction 1 as [|y xs Hy _ IH]; cbn [map fold_right List.length].
  - lia.
  - rewrite Nat2Z.inj_succ. lia.
Qed.

Lemma sum_units_upper (hi : Z) (xs : list float) :
  Forall (fun y => units y <= hi) xs ->
  sum_units xs <= Z.of_nat (List.length xs) * hi.
Proof.
  unfold sum_units. induction 1 as [|y xs Hy _ IH]; cbn [map fold_right List.length].
  - lia.
  - rewrite Nat2Z.inj_succ. lia.
Qed.

(** C7 (amended). Every non-empty session has an average, a fastest and a
    slowest trial, the last two taken from the trials.  When the trials are
    finite, every trial lies between the fastest and the slowest, and the
    average lies between them too whenever it is the exact mean of the
    trials, that is, whenever the sum and the quotient were computed
    without rounding error. *)
Theorem average_within_range_when_exact (results : list float) :
  results <> [] ->
  exists avg_rt fastest slowest,
    session_stats results = Ok (avg_rt, fastest, slowest)
    /\ avg_rt = (py_sum results / float_of_int (Z.of_nat (List.length results)))%float
    /\ In fastest results
    /\ In slowest results
    /\ (forallb is_finite results = true ->
        (forall x, In x results ->
           (fastest <=? x)%float = true /\ (x <=? slowest)%float = true)
        /\ (is_finite avg_rt = true -> exact_mean results avg_rt ->
            (fastest <=? avg_rt)%float = true
            /\ (avg_rt <=? slowest)%float = true)).
Proof.
  intros Hne. destruct results as [|x rest]; [congruence|].
  eexists _, _, _. split; [reflexivity|]. split; [reflexivity|].
  set (mn := fold_left (fun m y => if (y <? m)%float then y else m) rest x).
  set (mx := fold_left (fun m y => if (m <? y)%float then y else m) rest x).
  set (avg := (_ / _)%float).
  assert (Hin_mn : forall (Hx : is_finite x = true)
                          (Hrest : forallb is_finite rest = true),
             is_finite mn = true /\ In mn (x :: rest) /\ units mn <= units x
             /\ Forall (fun y => units mn <= units y) rest)
    by (intros; apply fold_min_spec; assumption).
  assert (Hin_mx : forall (Hx : is_finite x = true)
                          (Hrest : forallb is_finite rest = true),
             is_finite mx = true /\ In mx (x :: rest) /\ units x <= units mx
             /\ Forall (fun y => units y <= units mx) rest)
    by (intros; apply fold_max_spec; assumption).
  assert (Hmn_in : In mn (x :: rest)).
  { subst mn. clear. revert x. induction rest as [|y rest IH]; intros x; cbn [fold_left].
    - left. reflexivity.
    - destruct (y <? x)%float.
      + right. apply IH.
      + destruct (IH x) as [<- | Hin]; [left; reflexivity | right; right; exact Hin]. }
  assert (Hmx_in : In mx (x :: rest)).
  { subst mx. clear. revert x. induction rest as [|y rest IH]; intros x; cbn [fold_left].
    - left. reflexivity.
    - destruct (x <? y)%float.
      + right. apply IH.
      + destruct (IH x) as [<- | Hin]; [left; reflexivity | right; right; exact Hin]. }
  split; [exact Hmn_in|]. split; [exact Hmx_in|].
  intros Hfin. cbn [forallb] in Hfin. apply andb_prop in Hfin.
  destruct Hfin as [Hx Hrest].
  destruct (Hin_mn Hx Hrest) as (Hfmn & _ & Hmnx & Hmnall).
  destruct (Hin_mx Hx Hrest) as (Hfmx & _ & Hmxx & Hmxall).
  assert (Hlo : Forall (fun y => units mn <= units y) (x :: rest))
    by (constructor; assumption).
  assert (Hhi : Forall (fun y => units y <= units mx) (x :: rest))
    by (constructor; assumption).
  assert (Hfinall : forall y, In y (x :: rest) -> is_finite y = true).
  { intros y [<- | Hy]; [exact Hx|].
    rewrite forallb_forall in Hrest. apply Hrest. exact Hy. }
  split.
  - intros y Hy. rewrite Forall_forall in Hlo, Hhi.
    rewrite (leb_units _ _ Hfmn (Hfinall y Hy)), (leb_units _ _ (Hfinall y Hy) Hfmx).
    split; apply Z.leb_le; [apply Hlo | apply Hhi]; exact Hy.
  - intros Havg Hexact. unfold exact_mean in Hexact.
    pose proof (sum_units_lower _ _ Hlo) as Hl.
    pose proof (sum_units_upper _ _ Hhi) as Hu.
    rewrite <- Hexact in Hl, Hu.
    assert (Hn : 0 < Z.of_nat (List.length (x :: rest))) by (cbn [List.length]; lia).
    rewrite (leb_units _ _ Hfmn Havg), (leb_units _ _ Havg Hfmx).
    split; apply Z.leb_le; eapply Z.mul_le_mono_pos_l; eauto.
Qed.

Lemma average_within_range_when_exact_witness :
  example_trials <> []
  /\ forallb is_finite example_trials = true
  /\ exists avg_rt fastest slowest,
       session_stats example_trials = Ok (avg_rt, fastest, slowest)
       /\ is_finite avg_rt = true
       /\ exact_mean example_trials avg_rt
       /\ (fastest <=? avg_rt)%float = true
       /\ (avg_rt <=? slowest)%float = true.
Proof.
  assert (Hne : example_trials <> []) by discriminate.
  assert (Hfin : forallb is_finite example_trials = true) by reflexivity.
  split; [exact Hne|]. split; [exact Hfin|].
  destruct (average_within_range_when_exact example_trials Hne)
    as (avg_rt & fastest & slowest & Hstats & Havg & _ & _ & Hrange).
  exists avg_rt, fastest, slowest. split; [exact Hstats|].
  assert (Hfa : is_finite avg_rt = true)
    by (rewrite Havg; vm_compute; reflexivity).
  assert (Hex : exact_mean example_trials avg_rt)
    by (rewrite Havg; vm_compute; reflexivity).
  destruct (Hrange Hfin) as [_ Hin]. destruct (Hin Hfa Hex) as [Hlo Hhi].
  repeat split; assumption.
Defined.

(** C7 (counterexample). Three trials of 170.7 ms: the sum rounds down, and
    the average 170.69999999999996 is below the fastest trial. *)
Lemma average_below_fastest_counterexample :
  ~ average_within_range [170.7; 170.7; 170.7]%float.
Proof.
  intros Hclaim.
  destruct (Hclaim 170.69999999999996%float 170.7%float 170.7%float eq_refl)
    as [Hlow _].
  vm_compute in Hlow. discriminate Hlow.
Qed.

(* ================================================================== *)
(** ** Loading the history *)

Lemma all_averages_flat_map (f : list record) :
  all_averages f = flat_map row_averages (DictReader f).
Proof.
  unfold all_averages.
  assert (H : forall rows acc,
             fold_left
               (fun acc row =>
                  match read_average row with
                  | Ok x => (acc ++ [x])%list
                  | Raise _ => acc
                  end) rows acc
             = (acc ++ flat_map row_averages rows)%list).
  { induction rows as [|row rows IH]; intros acc; cbn [fold_left flat_map].
    - rewrite app_nil_r. reflexivity.
    - rewrite IH. unfold row_averages at 2.
      destruct (read_average row); [rewrite <- app_assoc|]; reflexivity. }
  apply H.
Qed.

Lemma all_averages_app (fieldnames : record) (rows1 rows2 : list record) :
  all_averages (fieldnames :: rows1 ++ rows2)
  = (all_averages (fieldnames :: rows1) ++ all_averages (fieldnames :: rows2))%list.
Proof.
  rewrite !all_averages_flat_map. cbn [DictReader].
  rewrite filter_app, map_app, flat_map_app. reflexivity.
Qed.

Lemma all_averages_skip (fieldnames row : record) (before after : list record) :
  row_averages (zip_row fieldnames row) = [] ->
  all_averages (fieldnames :: before ++ row :: after)
  = all_averages (fieldnames :: before ++ after).
Proof.
  intros Hrow.
  rewrite !all_averages_app.
  change (row :: after) with ([row] ++ after)%list.
  rewrite all_averages_app. f_equal.
  replace (all_averages [fieldnames; row]) with (@nil float); [reflexivity|].
  rewrite all_averages_flat_map. cbn [DictReader filter].
  destruct row; cbn [is_blank negb map flat_map]; [reflexivity|].
  rewrite Hrow. reflexivity.
Qed.

Lemma load_history_spec (f : list record) :
  load_history (Some f) =
  match all_averages f with
  | [] | [_] => None
  | averages => Some (removelast averages)
  end.
Proof.
  unfold load_history.
  destruct (all_averages f) as [|a [|b rest]] eqn:Havg; try reflexivity.
  set (l := a :: b :: rest).
  replace (1 <? List.length l)%nat with true
    by (symmetry; apply Nat.ltb_lt; cbn; lia).
  f_equal. rewrite removelast_firstn_len. f_equal; cbn; lia.
Qed.

(** C10. [load_history] never returns an empty list: either it returns
    [None], or more than one average was read and it returns all of them
    but the last, which is at least one. *)
Theorem load_history_never_empty (fs : filesystem) :
  load_history fs = None
  \/ exists f history,
       fs = Some f
       /\ load_history fs = Some history
       /\ (1 < List.length (all_averages f))%nat
       /\ history = removelast (all_averages f)
       /\ List.length history = (List.length (all_averages f) - 1)%nat
       /\ (1 <= List.length history)%nat
       /\ history <> [].
Proof.
  destruct fs as [f|]; [|left; reflexivity].
  rewrite load_history_spec.
  destruct (all_averages f) as [|a [|b rest]] eqn:Havg;
    [left; reflexivity | left; reflexivity | right].
  exists f, (removelast (a :: b :: rest)). rewrite ?Havg.
  split; [reflexivity|]. split; [reflexivity|].
  assert (Hlen : List.length (removelast (a :: b :: rest))
                 = (List.length (a :: b :: rest) - 1)%nat).
  { rewrite removelast_firstn_len, firstn_length_le; cbn; lia. }
  split; [cbn; lia|]. split; [reflexivity|]. split; [exact Hlen|].
  split; [rewrite Hlen; cbn; lia|].
  intros Hnil. rewrite Hnil in Hlen. cbn in Hlen. lia.
Qed.

(** C4. A log whose three records carry the averages 50.0, 60.0 and 70.0
    loads as [50.0, 60.0]; a log from which at most one average can be read
    (one record, say), and a missing log, load as [None]; a record whose
    average field is not numeric, or is missing, contributes nothing and the
    records around it are read as if it were not there.  What counts as
    numeric is what [float] reads: a field that begins with the control
    character 28 is not, a field with a minus sign, or with full-width
    digits between spaces, is. *)
Theorem load_history_examples :
  (forall d1 t1 f1 s1 a1 d2 t2 f2 s2 a2 d3 t3 f3 s3 a3,
      load_history (Some [header;
                          log_row d1 t1 "50.0" f1 s1 a1;
                          log_row d2 t2 "60.0" f2 s2 a2;
                          log_row d3 t3 "70.0" f3 s3 a3])
      = Some [50; 60]%float)
  /\ (forall d t f s a,
        load_history (Some [header; log_row d t "50.0" f s a]) = None)
  /\ (forall f, (List.length (all_averages f) <= 1)%nat ->
        load_history (Some f) = None)
  /\ load_history None = None
  /\ (forall fieldnames row before after e,
        read_average (zip_row fieldnames row) = Raise e ->
        all_averages (fieldnames :: before ++ row :: after)
        = all_averages (fieldnames :: before ++ after))
  /\ (forall d t f s a,
        read_average (zip_row header (log_row d t "n/a" f s a)) = Raise ValueError)
  /\ (forall d t, read_average (zip_row header [d; t]) = Raise TypeError)
  /\ (forall d1 t1 f1 s1 a1 d2 t2 f2 s2 a2 d3 t3 f3 s3 a3 d4 t4 f4 s4 a4,
        load_history (Some [header;
                            log_row d1 t1 "50.0" f1 s1 a1;
                            log_row d2 t2 "n/a" f2 s2 a2;
                            log_row d3 t3 "60.0" f3 s3 a3;
                            log_row d4 t4 "70.0" f4 s4 a4])
        = Some [50; 60]%float)
  /\ (forall d t f s a,
        read_average
          (zip_row header (log_row d t (String (ascii_of_nat 28) "150.0") f s a))
        = Raise ValueError)
  /\ (forall d1 t1 f1 s1 a1 d2 t2 f2 s2 a2,
        load_history (Some [header;
                            log_row d1 t1 (String (ascii_of_nat 28) "150.0") f1 s1 a1;
                            log_row d2 t2 "160.0" f2 s2 a2])
        = None)
  /\ (forall d1 t1 f1 s1 a1 d2 t2 f2 s2 a2 d3 t3 f3 s3 a3,
        load_history (Some [header;
                            log_row d1 t1 "-200" f1 s1 a1;
                            log_row d2 t2 " １５０ " f2 s2 a2;
                            log_row d3 t3 "1" f3 s3 a3])
        = Some [-200; 150]%float).
Proof.
  split; [intros; vm_compute; reflexivity|].
  split; [intros; vm_compute; reflexivity|].
  split.
  { intros f Hlen. rewrite load_history_spec.
    destruct (all_averages f) as [|a [|b rest]]; try reflexivity.
    cbn in Hlen. lia. }
  split; [reflexivity|].
  split.
  { intros fieldnames row before after e Hraise. apply all_averages_skip.
    unfold row_averages. rewrite Hraise. reflexivity. }
  split; [intros; vm_compute; reflexivity|].
  split; [intros; vm_compute; reflexivity|].
  split; [intros; vm_compute; reflexivity|].
  split; [intros; vm_compute; reflexivity|].
  split; [intros; vm_compute; reflexivity|].
  intros; vm_compute; reflexivity.
Qed.

(* ================================================================== *)
(** ** What is written can be read back *)

Lemma digit_of_ascii_inv (c : ascii) (d : Z) :
  digit_of_ascii c = Some d ->
  In c ["0"; "1"; "2"; "3"; "4"; "5"; "6"; "7"; "8"; "9"]%char.
Proof.
  destruct c as [[] [] [] [] [] [] [] []]; vm_compute; intros H;
    try discriminate H; auto 12.
Qed.

Lemma digit_not_space (c : ascii) (d : Z) :
  digit_of_ascii c = Some d -> is_space c = false.
Proof.
  intros H. apply digit_of_ascii_inv in H.
  repeat (destruct H as [<- | H]; [reflexivity|]). destruct H.
Qed.

Lemma append_empty_r (s : string) : s ++ "" = s.
Proof. induction s as [|c s IH]; cbn [append]; [|rewrite IH]; reflexivity. Qed.

Lemma all_digits_app (a b : string) :
  all_digits (a ++ b) = all_digits a && all_digits b.
Proof.
  induction a as [|c a IH]; cbn [append all_digits]; [reflexivity|].
  destruct (digit_of_ascii c); [exact IH | reflexivity].
Qed.

Lemma all_digits_repeat_zero (n : nat) : all_digits (repeat_str "0" n) = true.
Proof. induction n as [|n IH]; [reflexivity | exact IH]. Qed.

Lemma string_of_uint_digits (u : Decimal.uint) :
  all_digits (NilEmpty.string_of_uint u) = true.
Proof. induction u; cbn [NilEmpty.string_of_uint all_digits]; auto. Qed.

Lemma nilzero_digits (u : Decimal.uint) :
  all_digits (NilZero.string_of_uint u) = true
  /\ is_nonempty (NilZero.string_of_uint u) = true.
Proof.
  split.
  - destruct u; try reflexivity; apply (string_of_uint_digits (_ u)).
  - destruct u; reflexivity.
Qed.

Lemma str_of_Z_digits (z : Z) :
  0 <= z -> all_digits (str_of_Z z) = true /\ is_nonempty (str_of_Z z) = true.
Proof.
  intros Hz. destruct z as [|p|p]; [| |lia]; apply nilzero_digits.
Qed.

Lemma zfill_digits (width : nat) (s : string) :
  all_digits s = true -> is_nonempty s = true ->
  all_digits (zfill width s) = true /\ is_nonempty (zfill width s) = true.
Proof.
  intros Hd Hn. unfold zfill. split.
  - rewrite all_digits_app, all_digits_repeat_zero, Hd. reflexivity.
  - apply is_nonempty_app_r. exact Hn.
Qed.

Lemma last_not_space_app (a b : string) :
  is_nonempty b = true -> last_not_space (a ++ b) = last_not_space b.
Proof.
  intros Hb. induction a as [|c a IH]; cbn [append]; [reflexivity|].
  cbn [last_not_space]. destruct (a ++ b) eqn:Hab.
  - destruct a; cbn in Hab; [subst b; discriminate Hb | discriminate Hab].
  - exact IH.
Qed.

Lemma last_not_space_digits (s : string) :
  all_digits s = true -> is_nonempty s = true -> last_not_space s = true.
Proof.
  induction s as [|c s IH]; intros Hd Hn; [discriminate Hn|].
  cbn [all_digits] in Hd. destruct (digit_of_ascii c) as [d|] eqn:Hc; [|discriminate Hd].
  cbn [last_not_space]. destruct s as [|c' s'].
  - rewrite (digit_not_space _ _ Hc). reflexivity.
  - apply IH; [exact Hd | reflexivity].
Qed.

Lemma rstrip_id (s : string) : last_not_space s = true -> rstrip s = s.
Proof.
  induction s as [|c s IH]; intros H; [discriminate H|].
  cbn [rstrip]. destruct s as [|c' s'].
  - cbn [rstrip]. cbn [last_not_space] in H.
    destruct (is_space c); [discriminate H | reflexivity].
  - rewrite (IH H). reflexivity.
Qed.

(** Reading a run of digits that is followed by nothing or by a point. *)
Lemma digitpart_digits (s rest : string) :
  all_digits s = true ->
  rest = "" \/ (exists r, rest = String "." r) ->
  forall acc n,
  exists acc', digitpart (s ++ rest) acc n = (acc', (n + String.length s)%nat, rest).
Proof.
  intros Hs Hrest. induction s as [|c s IH]; intros acc n.
  - exists acc. cbn [append String.length]. rewrite Nat.add_0_r.
    destruct Hrest as [-> | [r ->]]; reflexivity.
  - cbn [all_digits] in Hs. cbn [append digitpart String.length].
    destruct (digit_of_ascii c) as [d|]; [|discriminate Hs].
    destruct (IH Hs (10 * acc + d) (S n)) as [acc' Hacc'].
    exists acc'. rewrite Hacc'. f_equal. f_equal. lia.
Qed.

Lemma parse_decimal_fixed (ip fp : string) :
  all_digits ip = true -> is_nonempty ip = true ->
  all_digits fp = true -> is_nonempty fp = true ->
  exists d, parse_decimal (ip ++ "." ++ fp) = Some (d, - Z.of_nat (String.length fp)).
Proof.
  intros Hi Hin Hf Hfn. unfold parse_decimal.
  destruct (digitpart_digits ip ("." ++ fp) Hi (or_intror (ex_intro _ fp eq_refl)) 0 0%nat)
    as [v Hv].
  rewrite Hv. cbn [append].
  destruct (digitpart_digits fp "" Hf (or_introl eq_refl) v 0%nat) as [d Hd].
  rewrite append_empty_r in Hd.
  rewrite Hd. exists d.
  destruct ip as [|c ip']; [discriminate Hin|].
  cbn [String.length Nat.add exponent]. reflexivity.
Qed.

Lemma strip_id (c : ascii) (s : string) :
  is_space c = false -> last_not_space (String c s) = true ->
  strip (String c s) = String c s.
Proof.
  intros Hc Hlast. unfold strip. cbn [lstrip]. rewrite Hc.
  apply rstrip_id. exact Hlast.
Qed.

Lemma is_ascii_app (a b : string) :
  is_ascii (a ++ b) = is_ascii a && is_ascii b.
Proof.
  induction a as [|c a IH]; cbn [append is_ascii]; [reflexivity|].
  rewrite IH. apply andb_assoc.
Qed.

Lemma all_digits_ascii (s : string) : all_digits s = true -> is_ascii s = true.
Proof.
  induction s as [|c s IH]; intros Hd; [reflexivity|].
  cbn [all_digits] in Hd. cbn [is_ascii].
  destruct (digit_of_ascii c) as [d|] eqn:Hc; [|discriminate Hd].
  rewrite (IH Hd). apply digit_of_ascii_inv in Hc.
  repeat (destruct Hc as [<- | Hc]; [reflexivity|]). destruct Hc.
Qed.

(** A numeral that starts with a digit is read as its value, and with a
    minus sign in front as the opposite value. *)
Lemma py_float_decimal (u : string) (d k : Z) :
  is_ascii u = true ->
  starts_with_digit u = true -> last_not_space u = true ->
  parse_decimal u = Some (d, k) ->
  py_float u = Ok (decimal_to_float false d k)
  /\ py_float ("-" ++ u) = Ok (decimal_to_float true d k).
Proof.
  intros Hascii Hstart Hlast Hparse.
  destruct u as [|c u']; [discriminate Hstart|].
  cbn [starts_with_digit] in Hstart.
  destruct (digit_of_ascii c) as [d0|] eqn:Hc; [|discriminate Hstart].
  pose proof (digit_not_space _ _ Hc) as Hsp.
  assert (Hneg : strip ("-" ++ String c u') = "-" ++ String c u').
  { apply strip_id; [reflexivity | exact Hlast]. }
  assert (Hascii' : is_ascii ("-" ++ String c u') = true).
  { change ("-" ++ String c u') with (String "-" (String c u')).
    cbn [is_ascii]. cbn [is_ascii] in Hascii. rewrite Hascii. reflexivity. }
  unfold py_float. rewrite Hascii, Hascii'. unfold float_from_string_inner.
  rewrite Hneg, (strip_id _ _ Hsp Hlast).
  cbn [append]. clear Hneg Hsp Hlast.
  set (read := parse_decimal) in *. clearbody read.
  apply digit_of_ascii_inv in Hc.
  repeat (destruct Hc as [<- | Hc];
          [split; cbn; rewrite Hparse; reflexivity|]).
  destruct Hc.
Qed.

Lemma round_half_even_nonneg (n e : Z) : 0 <= n -> 0 <= round_half_even n e.
Proof.
  intros Hn. unfold round_half_even. destruct e as [|p|p].
  - lia.
  - apply Z.mul_nonneg_nonneg; [exact Hn | apply Z.pow_nonneg; lia].
  - assert (Hd : 0 < 2 ^ Z.pos p) by (apply Z.pow_pos_nonneg; lia).
    pose proof (Z.div_pos n _ Hn Hd) as Hq. cbv zeta.
    destruct (2 * (n mod 2 ^ Z.pos p) ?= 2 ^ Z.pos p);
      [destruct (Z.even (n / 2 ^ Z.pos p)) | |]; lia.
Qed.

Lemma fixed_digits_1_parse (k : Z) :
  0 <= k ->
  exists d,
    py_float (fixed_digits 1 k) = Ok (decimal_to_float false d (-1))
    /\ py_float ("-" ++ fixed_digits 1 k) = Ok (decimal_to_float true d (-1)).
Proof.
  intros Hk. unfold fixed_digits. change (10 ^ Z.of_nat 1) with 10.
  destruct (str_of_Z_digits (k / 10)) as [Hid Hin]; [apply Z.div_pos; lia|].
  destruct (str_of_Z_digits (k mod 10)) as [Hfd0 Hfn0];
    [apply Z.mod_pos_bound; lia|].
  destruct (zfill_digits 1 _ Hfd0 Hfn0) as [Hfd Hfn].
  set (ip := str_of_Z (k / 10)) in *.
  set (fp := zfill 1 (str_of_Z (k mod 10))) in *.
  assert (Hlen : String.length fp = 1%nat).
  { subst fp. unfold zfill.
    assert (Hone : String.length (str_of_Z (k mod 10)) = 1%nat).
    { pose proof (Z.mod_pos_bound k 10 ltac:(lia)) as Hb.
      assert (Hcases : k mod 10 = 0 \/ k mod 10 = 1 \/ k mod 10 = 2 \/ k mod 10 = 3
                       \/ k mod 10 = 4 \/ k mod 10 = 5 \/ k mod 10 = 6
                       \/ k mod 10 = 7 \/ k mod 10 = 8 \/ k mod 10 = 9) by lia.
      repeat (destruct Hcases as [-> | Hcases]; [reflexivity|]).
      rewrite Hcases. reflexivity. }
    rewrite Hone. cbn [Nat.sub repeat_str append]. exact Hone. }
  destruct (parse_decimal_fixed ip fp Hid Hin Hfd Hfn) as [d Hparse].
  rewrite Hlen in Hparse. exists d.
  apply py_float_decimal; [| | |exact Hparse].
  - rewrite !is_ascii_app, (all_digits_ascii _ Hid), (all_digits_ascii _ Hfd).
    reflexivity.
  - destruct ip as [|c ip']; [discriminate Hin|].
    cbn [append starts_with_digit]. cbn [all_digits] in Hid.
    destruct (digit_of_ascii c); [reflexivity | discriminate Hid].
  - rewrite last_not_space_app by (apply is_nonempty_app_r; exact Hfn).
    rewrite last_not_space_app by exact Hfn.
    apply last_not_space_digits; assumption.
Qed.

(** Whatever average [save_results] writes, [float] reads a value back. *)
Lemma py_float_format_fixed_1 (x : float) :
  exists y, py_float (format_fixed 1 x) = Ok y.
Proof.
  unfold format_fixed. destruct (Prim2SF x) as [s | s | | s m e].
  - destruct s; eexists; vm_compute; reflexivity.
  - destruct s; eexists; vm_compute; reflexivity.
  - eexists; vm_compute; reflexivity.
  - destruct (fixed_digits_1_parse (round_half_even (Z.pos m * 10 ^ Z.of_nat 1) e))
      as (d & Hpos & Hneg).
    { apply round_half_even_nonneg. lia. }
    destruct s; eexists; [exact Hneg | exact Hpos].
Qed.

(* ================================================================== *)
(** ** Appending a session and loading again *)

Lemma read_average_log_row (date time avg_rt fastest slowest all_trials : string) :
  read_average (zip_row header (log_row date time avg_rt fastest slowest all_trials))
  = py_float avg_rt.
Proof. reflexivity. Qed.

Lemma all_averages_append_row (rows : list record)
    (date time avg_rt fastest slowest all_trials : string) (stored : float) :
  py_float avg_rt = Ok stored ->
  all_averages (header :: rows
                ++ [log_row date time avg_rt fastest slowest all_trials])
  = (all_averages (header :: rows) ++ [stored])%list.
Proof.
  intros Hread. rewrite all_averages_app. f_equal.
  rewrite all_averages_flat_map.
  cbn [DictReader filter log_row is_blank negb map flat_map].
  unfold row_averages.
  change (read_average _)
    with (read_average
            (zip_row header (log_row date time avg_rt fastest slowest all_trials))).
  rewrite read_average_log_row, Hread. reflexivity.
Qed.

Lemma save_results_log (now : datetime) (results : list float) (avg_rt : float)
    (st : state) :
  results <> [] ->
  exists fastest slowest,
    py_min results = Ok fastest
    /\ py_max results = Ok slowest
    /\ save_results now results avg_rt st =
       (Ok tt,
        {| stdout := (stdout st
                      ++ [(nl ++ "✓ Results saved to " ++ filepath st)%string])%list;
           home := home st;
           log := Some (match log st with
                        | Some f => f
                        | None => [header]
                        end
                        ++ [log_row (strftime_date now) (strftime_time now)
                              (format_fixed 1 avg_rt) (format_fixed 1 fastest)
                              (format_fixed 1 slowest)
                              (join "|" (map (format_fixed 1) results))])%list |}).
Proof.
  intros Hne.
  destruct (py_min_nonempty _ Hne) as [fastest Hmin].
  destruct (py_max_nonempty _ Hne) as [slowest Hmax].
  exists fastest, slowest. split; [exact Hmin|]. split; [exact Hmax|].
  unfold save_results, iobind, read_log, write_log, lift, print.
  cbn [stdout home log]. rewrite Hmin, Hmax. reflexivity.
Qed.

(** C5 (amended). For a log this program wrote (absent, or the header
    followed by records) and a session with at least one trial: appending
    the session succeeds, leaves the records of the log as they were and adds
    one record after them; the averages stored are then the prior ones,
    intact and in order, followed by what [float] reads from the new
    session's average as written with one decimal; and loading yields
    exactly the prior averages when there is at least one, and [None] when
    there is none. *)
Theorem append_then_load (st : state) (now : datetime) (results : list float)
    (avg_rt : float) :
  log_well_formed (log st) ->
  results <> [] ->
  exists st' records row stored,
    save_results now results avg_rt st = (Ok tt, st')
    /\ records = match log st with
                 | Some f => f
                 | None => [header]
                 end
    /\ log st' = Some (records ++ [row])%list
    /\ py_float (format_fixed 1 avg_rt) = Ok stored
    /\ stored_averages (log st') = (stored_averages (log st) ++ [stored])%list
    /\ load_history (log st') =
       match stored_averages (log st) with
       | [] => None
       | prior => Some prior
       end.
Proof.
  intros Hwf Hne.
  destruct (save_results_log now results avg_rt st Hne)
    as (fastest & slowest & _ & _ & Hsave).
  destruct (py_float_format_fixed_1 avg_rt) as [stored Hstored].
  eexists _, _, _, stored.
  split; [exact Hsave|]. split; [reflexivity|].
  cbn [log]. split; [reflexivity|]. split; [exact Hstored|].
  assert (Havg : stored_averages
                   (Some (match log st with
                          | Some f => f
                          | None => [header]
                          end
                          ++ [log_row (strftime_date now) (strftime_time now)
                                (format_fixed 1 avg_rt) (format_fixed 1 fastest)
                                (format_fixed 1 slowest)
                                (join "|" (map (format_fixed 1) results))])%list)
                 = (stored_averages (log st) ++ [stored])%list).
  { unfold stored_averages. destruct (log st) as [f|].
    - destruct Hwf as [rows ->].
      apply (all_averages_append_row rows). exact Hstored.
    - apply (all_averages_append_row []). exact Hstored. }
  split; [exact Havg|].
  unfold stored_averages in Havg at 1. rewrite load_history_spec, Havg.
  destruct (stored_averages (log st)) as [|a prior]; [reflexivity|].
  change ((a :: prior) ++ [stored])%list with (a :: (prior ++ [stored]))%list.
  destruct (prior ++ [stored])%list as [|b rest] eqn:Happ.
  - destruct prior; discriminate Happ.
  - rewrite <- Happ.
    change (a :: (prior ++ [stored]))%list with ((a :: prior) ++ [stored])%list.
    rewrite removelast_last. reflexivity.
Qed.

Lemma append_then_load_witness :
  log_well_formed (log example_state)
  /\ example_trials <> []
  /\ exists st' records row stored,
    save_results example_now example_trials 155 example_state = (Ok tt, st')
    /\ records = match log example_state with
                 | Some f => f
                 | None => [header]
                 end
    /\ log st' = Some (records ++ [row])%list
    /\ py_float (format_fixed 1 155) = Ok stored
    /\ stored_averages (log st') = (stored_averages (log example_state) ++ [stored])%list
    /\ load_history (log st') =
       match stored_averages (log example_state) with
       | [] => None
       | prior => Some prior
       end.
Proof.
  split; [exact I|]. split; [discriminate|].
  apply (append_then_load example_state example_now example_trials 155).
  - exact I.
  - discriminate.
Defined.

(** C5 (counterexample). The first session on a machine with no log: after
    it is appended, loading yields [None], not the (empty) list of prior
    averages; and the store holds 155.1, what was written of the average
    155.05, not the average itself. *)
Lemma first_session_round_trip_counterexample :
  session_stats first_session = Ok (155.05, 150, 160.1)%float
  /\ load_history (log (snd (save_results example_now first_session 155.05
                               example_state))) = None
  /\ stored_averages (log (snd (save_results example_now first_session 155.05
                                  example_state))) = [155.1]%float
  /\ ~ round_trip_as_stated example_state example_now first_session 155.05.
Proof.
  split; [vm_compute; reflexivity|].
  split; [vm_compute; reflexivity|].
  split; [vm_compute; reflexivity|].
  intros [Hload _]. vm_compute in Hload. discriminate Hload.
Qed.

(* ================================================================== *)
(** * Further properties of the program *)

(** ** Percentiles *)

(** X1. A faster average never gets a lower percentile: if [a <= b] then the
    percentile of [b] is at most that of [a].  The percentile is one of 99,
    95, 85, 50, 25, 10, and it is 10 ("Slow") exactly when the average is
    not below 320, which includes an average that is not a number. *)
Theorem calculate_percentile_antitone (a b : float) :
  (a <=? b)%float = true ->
  fst (calculate_percentile b) <= fst (calculate_percentile a)
  /\ In (fst (calculate_percentile a)) [99; 95; 85; 50; 25; 10]
  /\ (calculate_percentile a = (10, "Slow - you might be tired!")
      <-> (a <? 320)%float = false)
  /\ calculate_percentile nan = (10, "Slow - you might be tired!").
Proof.
  intros Hab.
  assert (Hm : forall t : float, (b <? t)%float = true -> (a <? t)%float = true).
  { intros t Ht. float_order. }
  assert (Hlt : forall s t : float, (s <=? t)%float = true ->
                  (a <? s)%float = true -> (a <? t)%float = true).
  { intros s t Hst Has. float_order. }
  split; [|split; [|split]].
  - unfold calculate_percentile.
    destruct (b <? 180)%float eqn:E1; [rewrite (Hm _ E1); cbn; lia|].
    destruct (b <? 200)%float eqn:E2;
      [rewrite (Hm _ E2); destruct (a <? 180)%float; cbn; lia|].
    destruct (b <? 230)%float eqn:E3;
      [rewrite (Hm _ E3); destruct (a <? 180)%float, (a <? 200)%float; cbn; lia|].
    destruct (b <? 270)%float eqn:E4;
      [rewrite (Hm _ E4);
       destruct (a <? 180)%float, (a <? 200)%float, (a <? 230)%float; cbn; lia|].
    destruct (b <? 320)%float eqn:E5;
      [rewrite (Hm _ E5);
       destruct (a <? 180)%float, (a <? 200)%float, (a <? 230)%float,
         (a <? 270)%float; cbn; lia|].
    destruct (a <? 180)%float, (a <? 200)%float, (a <? 230)%float,
      (a <? 270)%float, (a <? 320)%float; cbn; lia.
  - unfold calculate_percentile.
    destruct (a <? 180)%float, (a <? 200)%float, (a <? 230)%float,
      (a <? 270)%float, (a <? 320)%float; cbn; auto 10.
  - unfold calculate_percentile. split.
    + destruct (a <? 180)%float, (a <? 200)%float, (a <? 230)%float,
        (a <? 270)%float, (a <? 320)%float; intros H;
        first [reflexivity | discriminate H].
    + intros H320.
      destruct (a <? 180)%float eqn:E1;
        [rewrite (Hlt 180 320 eq_refl E1)%float in H320; discriminate H320|].
      destruct (a <? 200)%float eqn:E2;
        [rewrite (Hlt 200 320 eq_refl E2)%float in H320; discriminate H320|].
      destruct (a <? 230)%float eqn:E3;
        [rewrite (Hlt 230 320 eq_refl E3)%float in H320; discriminate H320|].
      destruct (a <? 270)%float eqn:E4;
        [rewrite (Hlt 270 320 eq_refl E4)%float in H320; discriminate H320|].
      rewrite H320. reflexivity.
  - reflexivity.
Qed.

Lemma calculate_percentile_antitone_witness :
  (185 <=? 240)%float = true
  /\ fst (calculate_percentile 240) <= fst (calculate_percentile 185)
  /\ In (fst (calculate_percentile 185)) [99; 95; 85; 50; 25; 10]
  /\ (calculate_percentile 185 = (10, "Slow - you might be tired!")
      <-> (185 <? 320)%float = false)
  /\ calculate_percentile nan = (10, "Slow - you might be tired!").
Proof.
  split; [reflexivity|].
  apply (calculate_percentile_antitone 185 240). reflexivity.
Defined.

(* ================================================================== *)
(** ** The insights of a session *)

(** The eight messages are pairwise different. *)
Lemma insight_messages_distinct :
  NoDup [morning_msg; afternoon_msg; late_night_msg; very_consistent_msg;
         normal_variability_msg; high_variability_msg; practice_msg; fatigue_msg].
Proof.
  repeat constructor; cbn [In];
    intros H; repeat (destruct H as [H | H]; [discriminate H|]); exact H.
Qed.

(** X2. For a session of at least 2 trials [get_interpretation] returns, in
    this order, at most one time-of-day insight, exactly one variability
    insight and at most one of the practice and fatigue insights: between 1
    and 3 insights, no insight twice, never practice and fatigue together. *)
Theorem get_interpretation_shape (now : datetime) (avg_rt : float)
    (time_of_day : Z) (trial_rts : list float) :
  (2 <= List.length trial_rts)%nat ->
  exists time variability learning,
    get_interpretation now avg_rt time_of_day trial_rts
    = Ok (time ++ [variability] ++ learning)%list
    /\ (time = [] \/ time = [morning_msg] \/ time = [afternoon_msg]
        \/ time = [late_night_msg])
    /\ (variability = very_consistent_msg
        \/ variability = normal_variability_msg
        \/ variability = high_variability_msg)
    /\ (learning = [] \/ learning = [practice_msg] \/ learning = [fatigue_msg])
    /\ (1 <= List.length (time ++ [variability] ++ learning) <= 3)%nat
    /\ NoDup (time ++ [variability] ++ learning)
    /\ ~ (In practice_msg (time ++ [variability] ++ learning)
          /\ In fatigue_msg (time ++ [variability] ++ learning)).
Proof.
  intros Hlen.
  destruct (halves_have_averages _ Hlen) as (Hfirst & Hsecond & v & Hvar).
  eexists _, _, _.
  split; [exact (get_interpretation_unfold _ _ _ _ _ _ _ Hvar Hfirst Hsecond)|].
  pose proof (time_of_day_insight_cases (hour now)) as Ht.
  pose proof (variability_insight_cases v) as Hv.
  match goal with
  | |- context [learning_insight ?f ?s] =>
      pose proof (learning_insight_cases f s) as Hl;
      set (learning := learning_insight f s) in *
  end.
  set (time := time_of_day_insight (hour now)) in *.
  set (variability := variability_insight v) in *.
  clearbody time variability learning.
  split; [exact Ht|]. split; [exact Hv|]. split; [exact Hl|].
  pose proof insight_messages_distinct as Hnd.
  destruct Ht as [-> | [-> | [-> | ->]]], Hv as [-> | [-> | ->]],
    Hl as [-> | [-> | ->]]; cbn [app List.length In];
    (split; [lia|]);
    (split;
     [repeat constructor; cbn [In];
      intros H; repeat (destruct H as [H | H]; [discriminate H|]); exact H
     |intros [Hp Hf];
      repeat (destruct Hp as [Hp | Hp]; [discriminate Hp|]);
      try exact Hp;
      repeat (destruct Hf as [Hf | Hf]; [discriminate Hf|]); exact Hf]).
Qed.

Lemma get_interpretation_shape_witness :
  (2 <= List.length example_trials)%nat
  /\ exists time variability learning,
    get_interpretation example_now 155 11 example_trials
    = Ok (time ++ [variability] ++ learning)%list
    /\ (time = [] \/ time = [morning_msg] \/ time = [afternoon_msg]
        \/ time = [late_night_msg])
    /\ (variability = very_consistent_msg
        \/ variability = normal_variability_msg
        \/ variability = high_variability_msg)
    /\ (learning = [] \/ learning = [practice_msg] \/ learning = [fatigue_msg])
    /\ (1 <= List.length (time ++ [variability] ++ learning) <= 3)%nat
    /\ NoDup (time ++ [variability] ++ learning)
    /\ ~ (In practice_msg (time ++ [variability] ++ learning)
          /\ In fatigue_msg (time ++ [variability] ++ learning)).
Proof.
  split; [simpl; lia|].
  apply (get_interpretation_shape example_now 155 11 example_trials).
  simpl. lia.
Defined.

(** X3. [get_interpretation] fails in two ways only: with [ValueError] on
    an empty session (the maximum of no trials) and with
    [ZeroDivisionError] on a session of one trial. *)
Theorem get_interpretation_errors (now : datetime) (avg_rt : float)
    (time_of_day : Z) (trial_rts : list float) (e : exn) :
  get_interpretation now avg_rt time_of_day trial_rts = Raise e
  <-> (trial_rts = [] /\ e = ValueError)
      \/ (exists x, trial_rts = [x] /\ e = ZeroDivisionError).
Proof.
  destruct trial_rts as [|x [|y rest]].
  - change (get_interpretation now avg_rt time_of_day []) with (@Raise (list string) ValueError).
    split.
    + intros [= <-]. left. split; reflexivity.
    + intros [[_ ->] | (x & Hx & _)]; [reflexivity | discriminate Hx].
  - change (get_interpretation now avg_rt time_of_day [x])
      with (@Raise (list string) ZeroDivisionError).
    split.
    + intros [= <-]. right. exists x. split; reflexivity.
    + intros [[Hx _] | (x' & _ & ->)]; [discriminate Hx | reflexivity].
  - assert (Hlen : (2 <= List.length (x :: y :: rest))%nat) by (cbn; lia).
    destruct (halves_have_averages _ Hlen) as (Hfirst & Hsecond & v & Hvar).
    rewrite (get_interpretation_unfold _ _ _ _ _ _ _ Hvar Hfirst Hsecond).
    split.
    + intros H. discriminate H.
    + intros [[H _] | (x' & H & _)]; discriminate H.
Qed.

Lemma time_insight_membership (msg : string) (h : Z) (v : float)
    (first_half second_half : float) :
  msg = morning_msg \/ msg = afternoon_msg \/ msg = late_night_msg ->
  In msg (time_of_day_insight h ++ [variability_insight v]
          ++ learning_insight first_half second_half)%list
  <-> In msg (time_of_day_insight h).
Proof.
  intros Hmsg. rewrite !in_app_iff. split; [|tauto].
  intros [Hin | [Hin | Hin]]; [exact Hin | exfalso | exfalso].
  - destruct (variability_insight_cases v) as [Hv | [Hv | Hv]];
      rewrite Hv in Hin; destruct Hin as [Heq | []];
      destruct Hmsg as [-> | [-> | ->]]; discriminate Heq.
  - destruct (learning_insight_cases first_half second_half) as [Hl | [Hl | Hl]];
      rewrite Hl in Hin; cbn [In] in Hin; try contradiction;
      destruct Hin as [Heq | []];
      destruct Hmsg as [-> | [-> | ->]]; discriminate Heq.
Qed.

(** X4. Whenever [get_interpretation] returns, its time-of-day insight
    follows the hour of the wall clock: the morning insight exactly from 6
    to 9, the afternoon insight exactly at 14 and 15, the late-night
    insight exactly from 22 on and before 6, and none of the three exactly
    from 10 to 13 and from 16 to 21. *)
Theorem time_of_day_insight_hours (now : datetime) (avg_rt : float)
    (time_of_day : Z) (trial_rts : list float) (insights : list string) :
  get_interpretation now avg_rt time_of_day trial_rts = Ok insights ->
  (In morning_msg insights <-> 6 <= hour now < 10)
  /\ (In afternoon_msg insights <-> 14 <= hour now < 16)
  /\ (In late_night_msg insights <-> 22 <= hour now \/ hour now < 6)
  /\ (~ In morning_msg insights /\ ~ In afternoon_msg insights
      /\ ~ In late_night_msg insights
      <-> 10 <= hour now < 14 \/ 16 <= hour now < 22).
Proof.
  intros Hget.
  assert (Hlen : (2 <= List.length trial_rts)%nat).
  { apply (get_interpretation_total_iff now avg_rt time_of_day).
    exists insights. exact Hget. }
  destruct (halves_have_averages _ Hlen) as (Hfirst & Hsecond & v & Hvar).
  rewrite (get_interpretation_unfold _ _ _ _ _ _ _ Hvar Hfirst Hsecond) in Hget.
  apply (f_equal (fun r => match r with Ok x => x | Raise _ => [] end)) in Hget.
  cbv beta iota in Hget. subst insights.
  rewrite !time_insight_membership by auto.
  unfold time_of_day_insight.
  destruct (Z.leb_spec 6 (hour now)), (Z.ltb_spec (hour now) 10),
    (Z.leb_spec 14 (hour now)), (Z.ltb_spec (hour now) 16),
    (Z.leb_spec 22 (hour now)), (Z.ltb_spec (hour now) 6);
    cbn [andb orb In]; try lia;
    repeat split; intros;
    repeat match goal with
           | H : _ /\ _ |- _ => destruct H
           | H : _ \/ _ |- _ => destruct H
           | H : False |- _ => destruct H
           | H : ?a = ?b |- _ => discriminate H
           | H : ~ _ |- _ => exfalso; apply H; auto; fail
           | |- ~ _ => intro
           end;
    try lia; auto.
Qed.

Lemma time_of_day_insight_hours_witness :
  get_interpretation example_now 155 11 example_trials = Ok [very_consistent_msg]
  /\ (In morning_msg [very_consistent_msg] <-> 6 <= hour example_now < 10)
  /\ (In afternoon_msg [very_consistent_msg] <-> 14 <= hour example_now < 16)
  /\ (In late_night_msg [very_consistent_msg]
      <-> 22 <= hour example_now \/ hour example_now < 6)
  /\ (~ In morning_msg [very_consistent_msg]
      /\ ~ In afternoon_msg [very_consistent_msg]
      /\ ~ In late_night_msg [very_consistent_msg]
      <-> 10 <= hour example_now < 14 \/ 16 <= hour example_now < 22).
Proof.
  split; [reflexivity|].
  apply (time_of_day_insight_hours example_now 155 11 example_trials).
  reflexivity.
Defined.

(* ================================================================== *)
(** ** Printing *)

Lemma print_printed (s : string) (st : state) :
  print s st = (Ok tt, printed st [s]).
Proof. reflexivity. Qed.

Lemma printed_printed (st : state) (a b : list string) :
  printed (printed st a) b = printed st (a ++ b).
Proof. unfold printed. cbn [stdout home log]. rewrite app_assoc. reflexivity. Qed.

Lemma same_files_refl (st : state) : same_files st st.
Proof. split; reflexivity. Qed.

Lemma same_files_trans (st1 st2 st3 : state) :
  same_files st1 st2 -> same_files st2 st3 -> same_files st1 st3.
Proof. intros [H1 H2] [H3 H4]. split; congruence. Qed.

Lemma same_files_printed (st : state) (lines : list string) :
  same_files st (printed st lines).
Proof. split; reflexivity. Qed.

Lemma stdout_printed (st : state) (lines : list string) :
  List.length (stdout (printed st lines))
  = (List.length (stdout st) + List.length lines)%nat.
Proof. cbn [printed stdout]. apply length_app. Qed.


(* ================================================================== *)
(** ** The trials *)

Lemma run_trial_spec (env : environment) (num_trials trial : nat) (st : state) :
  exists lines,
    run_trial env num_trials trial st = (Ok (elapsed_ms env trial), printed st lines)
    /\ List.length lines = 5%nat.
Proof.
  unfold run_trial, elapsed_ms, iobind, ret.
  destruct (timer env trial) as [start_time end_time].
  rewrite !print_printed, !printed_printed.
  destruct (_ <? 200)%float; [|destruct (_ <? 270)%float];
    rewrite print_printed, printed_printed; eexists; split; reflexivity.
Qed.

Lemma run_trials_spec (env : environment) (num_trials : nat) (trials : list nat) :
  forall results st,
  exists lines,
    run_trials env num_trials trials results st
    = (Ok (results ++ map (elapsed_ms env) trials)%list, printed st lines)
    /\ List.length lines = (5 * List.length trials)%nat.
Proof.
  induction trials as [|trial trials IH]; intros results st.
  - exists []. cbn [run_trials map ret]. rewrite app_nil_r.
    unfold printed. rewrite app_nil_r. destruct st. split; reflexivity.
  - cbn [run_trials map]. unfold iobind at 1.
    destruct (run_trial_spec env num_trials trial st) as (l1 & -> & Hl1).
    destruct (IH (results ++ [elapsed_ms env trial])%list (printed st l1))
      as (l2 & -> & Hl2).
    exists (l1 ++ l2)%list. rewrite printed_printed, <- app_assoc.
    split; [reflexivity|]. rewrite length_app. cbn [List.length]. lia.
Qed.

(** X5. The loop over the trials never fails and never touches the log: it
    returns one reaction time per trial, in trial order, each the time
    between the two readings of the clock in milliseconds, and prints five
    lines per trial. *)
Theorem run_trials_measures (env : environment) (num_trials : nat) (st : state) :
  exists st',
    run_trials env num_trials (seq 1 num_trials) [] st
    = (Ok (measured_times env num_trials), st')
    /\ List.length (measured_times env num_trials) = num_trials
    /\ (forall k, (k < num_trials)%nat ->
          nth_error (measured_times env num_trials) k
          = Some (((snd (timer env (S k)) - fst (timer env (S k))) * 1000)%float))
    /\ same_files st st'
    /\ List.length (stdout st')
       = (List.length (stdout st) + 5 * num_trials)%nat.
Proof.
  destruct (run_trials_spec env num_trials (seq 1 num_trials) [] st)
    as (lines & Hrun & Hlines).
  exists (printed st lines). split; [exact Hrun|].
  unfold measured_times.
  split; [rewrite length_map, length_seq; reflexivity|].
  split.
  - intros k Hk. rewrite nth_error_map, nth_error_seq.
    replace (k <? num_trials)%nat with true by (symmetry; apply Nat.ltb_lt; exact Hk).
    cbn [option_map Nat.add]. unfold elapsed_ms.
    destruct (timer env (S k)); reflexivity.
  - split; [apply same_files_printed|].
    rewrite stdout_printed, Hlines, length_seq. reflexivity.
Qed.

(* ================================================================== *)
(** ** The histogram *)

Lemma py_int_finite (x : float) :
  is_finite x = true -> exists n, py_int x = Ok n.
Proof.
  unfold is_finite, py_int.
  destruct (Prim2SF x); intros H; try discriminate H; eexists; reflexivity.
Qed.

Lemma py_int_not_finite (x : float) :
  is_finite x = false ->
  py_int x = Raise ValueError \/ py_int x = Raise OverflowError.
Proof.
  unfold is_finite, py_int.
  destruct (Prim2SF x); intros H; try discriminate H; auto.
Qed.

Lemma iobind_ok {A B : Type} (c : io A) (k : A -> io B) (st st' : state) (a : A) :
  c st = (Ok a, st') -> iobind c k st = k a st'.
Proof. intros H. unfold iobind. rewrite H. reflexivity. Qed.

Lemma iobind_raise {A B : Type} (c : io A) (k : A -> io B) (st st' : state)
    (e : exn) :
  c st = (Raise e, st') -> iobind c k st = (Raise e, st').
Proof. intros H. unfold iobind. rewrite H. reflexivity. Qed.

Lemma printed_nil (st : state) : printed st [] = st.
Proof. unfold printed. rewrite app_nil_r. destruct st; reflexivity. Qed.

Lemma histogram_row_ok (i : nat) (rt : float) (n : Z) (st : state) :
  py_int (rt / 20) = Ok n ->
  histogram_row (i, rt) st
  = (Ok tt,
     printed st ["  Trial " ++ str_of_nat i ++ ": " ++ repeat_str "█" (Z.to_nat n)
                 ++ " " ++ format_fixed 0 rt ++ "ms"]).
Proof.
  intros Hn. unfold histogram_row, iobind, lift. rewrite Hn. apply print_printed.
Qed.

Lemma histogram_row_raise (i : nat) (rt : float) (e : exn) (st : state) :
  py_int (rt / 20) = Raise e -> histogram_row (i, rt) st = (Raise e, st).
Proof. intros He. unfold histogram_row, iobind, lift. rewrite He. reflexivity. Qed.

Lemma py_int_raise_kind (x : float) (e : exn) :
  py_int x = Raise e ->
  is_finite x = false /\ e = if is_nan x then ValueError else OverflowError.
Proof.
  unfold py_int, is_finite, is_nan.
  destruct (Prim2SF x); intros H; try discriminate H;
    injection H as <-; split; reflexivity.
Qed.

Lemma histogram_lines_for_cons (i : nat) (rt : float) (n : Z) (rts : list float)
    (lines : list string) :
  py_int (rt / 20) = Ok n ->
  histogram_lines_for (S i) rts lines ->
  histogram_lines_for i (rt :: rts)
    (("  Trial " ++ str_of_nat i ++ ": " ++ repeat_str "█" (Z.to_nat n)
      ++ " " ++ format_fixed 0 rt ++ "ms") :: lines).
Proof.
  intros Hn [Hlen Hlines]. split; [cbn [List.length]; rewrite Hlen; reflexivity|].
  intros [|k] rt' Hk; cbn [nth_error] in *.
  - injection Hk as <-. exists n. rewrite Nat.add_0_r. split; [exact Hn | reflexivity].
  - destruct (Hlines k rt' Hk) as (n' & Hn' & Hline).
    exists n'. rewrite Nat.add_succ_r. split; [exact Hn' | exact Hline].
Qed.

Lemma histogram_lines (results : list float) :
  forall i st,
    (bars_defined results = true ->
     exists lines,
       for_each (enumerate results i) histogram_row st = (Ok tt, printed st lines)
       /\ histogram_lines_for i results lines)
    /\ (bars_defined results = false ->
        exists e before bad after lines,
          results = (before ++ bad :: after)%list
          /\ bars_defined before = true
          /\ py_int (bad / 20) = Raise e
          /\ for_each (enumerate results i) histogram_row st
             = (Raise e, printed st lines)
          /\ histogram_lines_for i before lines).
Proof.
  induction results as [|rt results IH]; intros i st.
  - split; [|discriminate].
    intros _. exists []. cbn [enumerate for_each ret]. rewrite printed_nil.
    split; [reflexivity|]. split; [reflexivity|].
    intros k rt Hk. destruct k; discriminate Hk.
  - cbn [bars_defined forallb enumerate for_each].
    fold (bars_defined results).
    destruct (is_finite (rt / 20)) eqn:Hfin; cbn [andb].
    + destruct (py_int_finite _ Hfin) as [n Hn].
      rewrite (iobind_ok _ _ _ _ _ (histogram_row_ok i rt n st Hn)).
      destruct (IH (S i) (printed st
                  ["  Trial " ++ str_of_nat i ++ ": " ++ repeat_str "█" (Z.to_nat n)
                   ++ " " ++ format_fixed 0 rt ++ "ms"])) as [IHok IHerr].
      split.
      * intros Hok. destruct (IHok Hok) as (lines & -> & Hlines).
        eexists. rewrite printed_printed. split; [reflexivity|].
        cbn [app]. apply histogram_lines_for_cons; assumption.
      * intros Herr.
        destruct (IHerr Herr) as (e & before & bad & after & lines & -> & Hbefore
                                  & Hbad & -> & Hlines).
        exists e, (rt :: before), bad, after. eexists.
        rewrite printed_printed.
        split; [reflexivity|].
        split; [cbn [bars_defined forallb]; rewrite Hfin; exact Hbefore|].
        split; [exact Hbad|]. split; [reflexivity|].
        cbn [app]. apply histogram_lines_for_cons; assumption.
    + split; [discriminate|]. intros _.
      destruct (py_int_not_finite _ Hfin) as [Hraise | Hraise].
      * exists ValueError, [], rt, results, [].
        rewrite (iobind_raise _ _ _ _ _ (histogram_row_raise i rt _ st Hraise)).
        rewrite printed_nil. split; [reflexivity|]. split; [reflexivity|].
        split; [exact Hraise|]. split; [reflexivity|].
        split; [reflexivity|]. intros k rt' Hk. destruct k; discriminate Hk.
      * exists OverflowError, [], rt, results, [].
        rewrite (iobind_raise _ _ _ _ _ (histogram_row_raise i rt _ st Hraise)).
        rewrite printed_nil. split; [reflexivity|]. split; [reflexivity|].
        split; [exact Hraise|]. split; [reflexivity|].
        split; [reflexivity|]. intros k rt' Hk. destruct k; discriminate Hk.
Qed.

Lemma display_histogram_lines (results : list float) (st : state) :
  (bars_defined results = true ->
   exists lines,
     display_histogram results st
     = (Ok tt, printed st ((nl ++ "Your reaction times:") :: lines))
     /\ histogram_lines_for 1 results lines)
  /\ (bars_defined results = false ->
      exists e before bad after lines,
        results = (before ++ bad :: after)%list
        /\ bars_defined before = true
        /\ py_int (bad / 20) = Raise e
        /\ display_histogram results st
           = (Raise e, printed st ((nl ++ "Your reaction times:") :: lines))
        /\ histogram_lines_for 1 before lines).
Proof.
  unfold display_histogram. fold histogram_row.
  rewrite (iobind_ok _ _ _ _ _ (print_printed _ st)).
  destruct (histogram_lines results 1%nat
              (printed st [nl ++ "Your reaction times:"])) as [Hok Herr].
  split.
  - intros Hdef. destruct (Hok Hdef) as (lines & -> & Hlines).
    exists lines. rewrite printed_printed. split; [reflexivity | exact Hlines].
  - intros Hdef.
    destruct (Herr Hdef) as (e & before & bad & after & lines & Hsplit & Hbefore
                             & Hbad & -> & Hlines).
    exists e, before, bad, after, lines. rewrite printed_printed.
    split; [exact Hsplit|]. split; [exact Hbefore|]. split; [exact Hbad|].
    split; [reflexivity | exact Hlines].
Qed.

Lemma display_histogram_printed (results : list float) (st : state) :
  (bars_defined results = true ->
   exists lines,
     display_histogram results st = (Ok tt, printed st lines)
     /\ List.length lines = (1 + List.length results)%nat)
  /\ (bars_defined results = false ->
      exists e lines,
        display_histogram results st = (Raise e, printed st lines)
        /\ (e = ValueError \/ e = OverflowError)
        /\ (List.length lines < 1 + List.length results)%nat).
Proof.
  destruct (display_histogram_lines results st) as [Hok Herr].
  split.
  - intros Hdef. destruct (Hok Hdef) as (lines & -> & Hlen & _).
    eexists. split; [reflexivity|]. cbn [List.length]. lia.
  - intros Hdef.
    destruct (Herr Hdef) as (e & before & bad & after & lines & -> & _ & Hbad
                             & -> & Hlen & _).
    exists e. eexists. split; [reflexivity|].
    destruct (py_int_raise_kind _ _ Hbad) as [_ ->].
    split; [destruct (is_nan (bad / 20)); auto|].
    cbn [List.length]. rewrite length_app. cbn [List.length]. lia.
Qed.

(** X6. [display_histogram] prints its heading and then, for each trial in
    order, one line with the trial's number from 1, one block for every full
    20 ms and the time without decimals; it succeeds exactly when [rt / 20]
    is finite for every trial.  Otherwise it stops at the first trial for
    which it is not, with [ValueError] when that value is not a number and
    [OverflowError] when it is infinite, having printed the heading and the
    lines of the trials before that one, and no other.  It never touches the
    log. *)
Theorem display_histogram_outcome (results : list float) (st : state) :
  (bars_defined results = true ->
   exists st' lines,
     display_histogram results st = (Ok tt, st')
     /\ same_files st st'
     /\ stdout st' = (stdout st ++ (nl ++ "Your reaction times:")%string :: lines)%list
     /\ List.length lines = List.length results
     /\ forall k rt,
          nth_error results k = Some rt ->
          exists n,
            py_int (rt / 20) = Ok n
            /\ nth_error lines k
               = Some ("  Trial " ++ str_of_nat (1 + k) ++ ": "
                       ++ repeat_str "█" (Z.to_nat n) ++ " "
                       ++ format_fixed 0 rt ++ "ms"))
  /\ (bars_defined results = false ->
      exists e st' before bad after lines,
        results = (before ++ bad :: after)%list
        /\ bars_defined before = true
        /\ is_finite (bad / 20) = false
        /\ display_histogram results st = (Raise e, st')
        /\ e = (if is_nan (bad / 20) then ValueError else OverflowError)
        /\ same_files st st'
        /\ stdout st' = (stdout st ++ (nl ++ "Your reaction times:")%string :: lines)%list
        /\ List.length lines = List.length before
        /\ forall k rt,
             nth_error before k = Some rt ->
             exists n,
               py_int (rt / 20) = Ok n
               /\ nth_error lines k
                  = Some ("  Trial " ++ str_of_nat (1 + k) ++ ": "
                          ++ repeat_str "█" (Z.to_nat n) ++ " "
                          ++ format_fixed 0 rt ++ "ms")).
Proof.
  destruct (display_histogram_lines results st) as [Hok Herr].
  split.
  - intros Hdef. destruct (Hok Hdef) as (lines & -> & Hlen & Hlines).
    eexists. exists lines. split; [reflexivity|].
    split; [apply same_files_printed|]. split; [reflexivity|].
    split; [exact Hlen | exact Hlines].
  - intros Hdef.
    destruct (Herr Hdef) as (e & before & bad & after & lines & Hsplit & Hbefore
                             & Hbad & -> & Hlen & Hlines).
    destruct (py_int_raise_kind _ _ Hbad) as [Hfin He].
    exists e. eexists. exists before, bad, after, lines.
    split; [exact Hsplit|]. split; [exact Hbefore|]. split; [exact Hfin|].
    split; [reflexivity|]. split; [exact He|].
    split; [apply same_files_printed|]. split; [reflexivity|].
    split; [exact Hlen | exact Hlines].
Qed.

(* ================================================================== *)
(** ** The comparison with the history *)

(** X7. Loading the history and comparing with it never fails and never
    touches the log.  With at most one average in the log nothing is
    printed; with two or more, three lines are printed: the number of
    stored averages but the last one, their mean as the usual average, and
    the verdict on today's average less that mean (faster below -10, slower
    above 10, consistent otherwise). *)
Theorem history_comparison_outcome (avg_rt : float) (fs : filesystem) (st : state) :
  exists st',
    compare_with_history avg_rt (load_history fs) st = (Ok tt, st')
    /\ same_files st st'
    /\ (((List.length (stored_averages fs) <= 1)%nat /\ st' = st)
        \/ ((2 <= List.length (stored_averages fs))%nat
            /\ exists personal_avg line,
                 py_truediv (py_sum (removelast (stored_averages fs)))
                   (List.length (stored_averages fs) - 1) = Ok personal_avg
                 /\ stdout st'
                    = (stdout st
                       ++ [(nl ++ "  📈 Personal history ("
                            ++ str_of_nat (List.length (stored_averages fs) - 1)
                            ++ " previous sessions):")%string;
                           ("     Your usual average: "
                            ++ format_fixed 1 personal_avg ++ " ms")%string;
                           line])%list
                 /\ line = verdict_line (avg_rt - personal_avg)
                 /\ ((avg_rt - personal_avg <? -10)%float = true ->
                     line = "     Today: "
                            ++ format_fixed 0 (abs (avg_rt - personal_avg))
                            ++ " ms FASTER than usual 🎉")
                 /\ ((avg_rt - personal_avg <? -10)%float = false ->
                     (10 <? avg_rt - personal_avg)%float = true ->
                     line = "     Today: "
                            ++ format_fixed 0 (avg_rt - personal_avg)
                            ++ " ms slower than usual")
                 /\ ((avg_rt - personal_avg <? -10)%float = false ->
                     (10 <? avg_rt - personal_avg)%float = false ->
                     line = "     Today: consistent with your baseline"))).
Proof.
  destruct fs as [f|].
  - rewrite load_history_spec. cbn [stored_averages].
    destruct (all_averages f) as [|a [|b rest]] eqn:Havg.
    + exists st. split; [reflexivity|]. split; [apply same_files_refl|].
      left. split; [cbn; lia | reflexivity].
    + exists st. split; [reflexivity|]. split; [apply same_files_refl|].
      left. split; [cbn; lia | reflexivity].
    + assert (Hlen : List.length (removelast (a :: b :: rest))
                     = (List.length (a :: b :: rest) - 1)%nat).
      { rewrite removelast_firstn_len, firstn_length_le; cbn; lia. }
      change (removelast (a :: b :: rest)) with (a :: removelast (b :: rest)) in *.
      set (history := a :: removelast (b :: rest)) in *.
      eexists. split.
      { unfold compare_with_history, history, iobind, lift.
        cbn [py_truediv List.length]. rewrite !print_printed, !printed_printed.
        reflexivity. }
      split; [apply same_files_printed|].
      right. split; [cbn; lia|].
      eexists. eexists. split.
      { rewrite <- Hlen. unfold history. cbn [List.length py_truediv]. reflexivity. }
      split; [cbn [printed stdout app]; rewrite <- Hlen; reflexivity|].
      split; [reflexivity|].
      apply verdict_line_text.
  - exists st. split; [reflexivity|]. split; [apply same_files_refl|].
    left. split; [cbn; lia | reflexivity].
Qed.

Lemma is_nan_add_l (x y : float) : is_nan x = true -> is_nan (x + y) = true.
Proof.
  unfold is_nan. rewrite add_spec.
  destruct (Prim2SF x); intros H; try discriminate H. reflexivity.
Qed.

Lemma is_nan_add_r (x y : float) : is_nan y = true -> is_nan (x + y) = true.
Proof.
  unfold is_nan. rewrite add_spec.
  destruct (Prim2SF y); intros H; try discriminate H.
  destruct (Prim2SF x); reflexivity.
Qed.

Lemma is_nan_div_l (x y : float) : is_nan x = true -> is_nan (x / y) = true.
Proof.
  unfold is_nan. rewrite div_spec.
  destruct (Prim2SF x); intros H; try discriminate H. reflexivity.
Qed.

Lemma is_nan_sub_r (x y : float) : is_nan y = true -> is_nan (x - y) = true.
Proof.
  unfold is_nan. rewrite sub_spec.
  destruct (Prim2SF y); intros H; try discriminate H.
  destruct (Prim2SF x); reflexivity.
Qed.

Lemma ltb_nan_l (x y : float) : is_nan x = true -> (x <? y)%float = false.
Proof.
  unfold is_nan. rewrite ltb_spec.
  destruct (Prim2SF x); intros H; try discriminate H. reflexivity.
Qed.

Lemma ltb_nan_r (x y : float) : is_nan y = true -> (x <? y)%float = false.
Proof.
  unfold is_nan. rewrite ltb_spec.
  destruct (Prim2SF y); intros H; try discriminate H.
  destruct (Prim2SF x); reflexivity.
Qed.

Lemma fold_add_nan (xs : list float) :
  forall acc,
    is_nan acc = true \/ existsb is_nan xs = true ->
    is_nan (fold_left PrimFloat.add xs acc) = true.
Proof.
  induction xs as [|x xs IH]; intros acc H; cbn [fold_left].
  - destruct H as [H | H]; [exact H | discriminate H].
  - apply IH. cbn [existsb] in H.
    destruct H as [H | H].
    + left. apply is_nan_add_l. exact H.
    + apply orb_prop in H. destruct H as [H | H].
      * left. apply is_nan_add_r. exact H.
      * right. exact H.
Qed.

(** X8. [float] reads the text [nan] as a number, so a record with that
    average is not skipped; and once the history holds a value that is not
    a number, the baseline is not a number either and the comparison
    reports "consistent with your baseline", whatever today's average. *)
Theorem nan_history_reads_consistent (avg_rt : float) (history : list float) :
  existsb is_nan history = true ->
  exists personal_avg,
    py_truediv (py_sum history) (List.length history) = Ok personal_avg
    /\ is_nan personal_avg = true
    /\ compare_to_baseline (avg_rt - personal_avg) = Consistent
    /\ verdict_line (avg_rt - personal_avg)
       = "     Today: consistent with your baseline"
    /\ forall d t f s a,
         row_averages (zip_row header (log_row d t "nan" f s a)) = [nan]
         /\ is_nan nan = true.
Proof.
  intros Hnan.
  destruct history as [|h rest]; [discriminate Hnan|].
  eexists. split; [reflexivity|].
  assert (Hsum : is_nan (py_sum (h :: rest)) = true).
  { unfold py_sum. apply fold_add_nan. right. exact Hnan. }
  assert (Havg : is_nan (py_sum (h :: rest)
                        / float_of_int (Z.of_nat (List.length (h :: rest)))) = true).
  { apply is_nan_div_l. exact Hsum. }
  split; [exact Havg|].
  assert (Hdiff : is_nan (avg_rt - py_sum (h :: rest)
                          / float_of_int (Z.of_nat (List.length (h :: rest)))) = true).
  { apply is_nan_sub_r. exact Havg. }
  assert (Hverdict : compare_to_baseline
                       (avg_rt - py_sum (h :: rest)
                        / float_of_int (Z.of_nat (List.length (h :: rest))))
                     = Consistent).
  { unfold compare_to_baseline.
    rewrite (ltb_nan_l _ _ Hdiff), (ltb_nan_r _ _ Hdiff). reflexivity. }
  split; [exact Hverdict|].
  split; [unfold verdict_line; rewrite Hverdict; reflexivity|].
  intros d t f s a. split; vm_compute; reflexivity.
Qed.

Lemma nan_history_reads_consistent_witness :
  existsb is_nan [150; nan; 160]%float = true
  /\ exists personal_avg,
    py_truediv (py_sum [150; nan; 160]%float) (List.length [150; nan; 160]%float)
    = Ok personal_avg
    /\ is_nan personal_avg = true
    /\ compare_to_baseline (400 - personal_avg) = Consistent
    /\ verdict_line (400 - personal_avg)
       = "     Today: consistent with your baseline"
    /\ forall d t f s a,
         row_averages (zip_row header (log_row d t "nan" f s a)) = [nan]
         /\ is_nan nan = true.
Proof.
  split; [reflexivity|].
  apply (nan_history_reads_consistent 400 [150; nan; 160]%float). reflexivity.
Defined.

(* ================================================================== *)
(** ** Saving with nothing to save *)

(** X9. [save_results] on an empty session raises [ValueError] (the minimum
    of no trials) after the file was opened: nothing is printed, no record
    is written, an existing log is left as it was and a missing one now
    exists with its header only; what [load_history] returns is unchanged. *)
Theorem save_results_empty (now : datetime) (avg_rt : float) (st : state) :
  exists st',
    save_results now [] avg_rt st = (Raise ValueError, st')
    /\ stdout st' = stdout st
    /\ home st' = home st
    /\ (log st = None -> log st' = Some [header])
    /\ (forall f, log st = Some f -> log st' = Some f)
    /\ load_history (log st') = load_history (log st).
Proof.
  eexists. split.
  { unfold save_results, iobind, read_log, write_log, lift, print.
    cbn [stdout home log py_min]. reflexivity. }
  cbn [stdout home log].
  split; [reflexivity|]. split; [reflexivity|].
  destruct (log st) as [f|].
  - split; [discriminate|]. split; [intros f' [= <-]; reflexivity | reflexivity].
  - split; [reflexivity|]. split; [discriminate | reflexivity].
Qed.

(* ================================================================== *)
(** ** The record a session writes, read back *)

Lemma dict_get_missing (key : string) (fieldnames : list string) :
  ~ In key fieldnames ->
  forall row, dict_get (zip_row fieldnames row) key = Raise KeyError.
Proof.
  induction fieldnames as [|k ks IH]; intros Hnot row.
  - destruct row; reflexivity.
  - assert (Hk : String.eqb k key = false).
    { apply String.eqb_neq. intros ->. apply Hnot. left. reflexivity. }
    assert (Hks : ~ In key ks) by (intros H; apply Hnot; right; exact H).
    destruct row as [|v vs]; cbn [zip_row dict_get]; rewrite (IH Hks), Hk;
      reflexivity.
Qed.

Lemma DictReader_last (fieldnames : record) (rows : list record) (v : string)
    (vs : list string) (d : dict) :
  last (DictReader (fieldnames :: rows ++ [v :: vs])) d
  = zip_row fieldnames (v :: vs).
Proof.
  cbn [DictReader]. rewrite filter_app, map_app.
  cbn [filter is_blank negb map]. apply last_last.
Qed.

(** X10. What a session writes can be read back field by field: after a
    successful save the last row [csv.DictReader] yields from the log maps
    the six column names to the date and the time of the save, the average,
    the fastest and the slowest trial with one decimal, and the trials
    joined with a bar; any other key is missing.  One line is printed,
    naming the file. *)
Theorem saved_record_fields (st : state) (now : datetime) (results : list float)
    (avg_rt : float) :
  log_well_formed (log st) ->
  results <> [] ->
  exists st' f fastest slowest,
    save_results now results avg_rt st = (Ok tt, st')
    /\ log st' = Some f
    /\ py_min results = Ok fastest
    /\ py_max results = Ok slowest
    /\ stdout st'
       = (stdout st
          ++ [(nl ++ "✓ Results saved to " ++ home st ++ "/reaction_time_log.csv")%string])%list
    /\ let row := last (DictReader f) [] in
       dict_get row "date" = Ok (Some (strftime_date now))
       /\ dict_get row "time" = Ok (Some (strftime_time now))
       /\ dict_get row "avg_rt_ms" = Ok (Some (format_fixed 1 avg_rt))
       /\ dict_get row "fastest_ms" = Ok (Some (format_fixed 1 fastest))
       /\ dict_get row "slowest_ms" = Ok (Some (format_fixed 1 slowest))
       /\ dict_get row "all_trials_ms"
          = Ok (Some (join "|" (map (format_fixed 1) results)))
       /\ forall key, ~ In key header -> dict_get row key = Raise KeyError.
Proof.
  intros Hwf Hne.
  destruct (save_results_log now results avg_rt st Hne)
    as (fastest & slowest & Hmin & Hmax & Hsave).
  eexists. eexists. exists fastest, slowest.
  split; [exact Hsave|]. cbn [log stdout].
  split; [reflexivity|]. split; [exact Hmin|]. split; [exact Hmax|].
  split; [reflexivity|].
  assert (Hlast : last (DictReader
                    (match log st with Some f => f | None => [header] end
                     ++ [log_row (strftime_date now) (strftime_time now)
                           (format_fixed 1 avg_rt) (format_fixed 1 fastest)
                           (format_fixed 1 slowest)
                           (join "|" (map (format_fixed 1) results))])%list) []
                  = zip_row header
                      (log_row (strftime_date now) (strftime_time now)
                         (format_fixed 1 avg_rt) (format_fixed 1 fastest)
                         (format_fixed 1 slowest)
                         (join "|" (map (format_fixed 1) results)))).
  { destruct (log st) as [f|].
    - destruct Hwf as [rows ->]. unfold log_row.
      change ((header :: rows) ++ ?r)%list with (header :: rows ++ r)%list.
      apply DictReader_last.
    - unfold log_row.
      change ([header] ++ ?r)%list with (header :: [] ++ r)%list.
      apply DictReader_last. }
  cbv zeta. rewrite Hlast.
  repeat (split; [reflexivity|]).
  intros key Hkey. apply dict_get_missing. exact Hkey.
Qed.

Lemma saved_record_fields_witness :
  log_well_formed (log example_state)
  /\ example_trials <> []
  /\ exists st' f fastest slowest,
    save_results example_now example_trials 155 example_state = (Ok tt, st')
    /\ log st' = Some f
    /\ py_min example_trials = Ok fastest
    /\ py_max example_trials = Ok slowest
    /\ stdout st'
       = (stdout example_state
          ++ [(nl ++ "✓ Results saved to " ++ home example_state
               ++ "/reaction_time_log.csv")%string])%list
    /\ let row := last (DictReader f) [] in
       dict_get row "date" = Ok (Some (strftime_date example_now))
       /\ dict_get row "time" = Ok (Some (strftime_time example_now))
       /\ dict_get row "avg_rt_ms" = Ok (Some (format_fixed 1 155))
       /\ dict_get row "fastest_ms" = Ok (Some (format_fixed 1 fastest))
       /\ dict_get row "slowest_ms" = Ok (Some (format_fixed 1 slowest))
       /\ dict_get row "all_trials_ms"
          = Ok (Some (join "|" (map (format_fixed 1) example_trials)))
       /\ forall key, ~ In key header -> dict_get row key = Raise KeyError.
Proof.
  split; [exact I|]. split; [discriminate|].
  apply (saved_record_fields example_state example_now example_trials 155).
  - exact I.
  - discriminate.
Defined.

(* ================================================================== *)
(** ** Which column [load_history] reads *)

(** X11. Under the header this program writes, the average of a record is
    its third field: a record with fewer than three fields raises
    [TypeError] ([float(None)]) and is passed over, the averages found being
    those of the other records.  Under a header that has no [avg_rt_ms]
    column every record raises [KeyError], so no average is found and
    [load_history] returns [None], however many records there are. *)
Theorem average_is_third_column :
  (forall row : record,
     read_average (zip_row header row)
     = match nth_error row 2 with
       | Some s => py_float s
       | None => Raise TypeError
       end)
  /\ (forall (row : record) (before after : list record),
        (List.length row < 3)%nat ->
        (row <> [] -> read_average (zip_row header row) = Raise TypeError)
        /\ all_averages (header :: before ++ row :: after)
           = all_averages (header :: before ++ after)
        /\ load_history (Some (header :: before ++ row :: after))
           = load_history (Some (header :: before ++ after)))
  /\ (forall (fieldnames : record) (rows : list record),
        ~ In "avg_rt_ms" fieldnames ->
        (forall row, read_average (zip_row fieldnames row) = Raise KeyError)
        /\ all_averages (fieldnames :: rows) = []
        /\ load_history (Some (fieldnames :: rows)) = None).
Proof.
  assert (Hthird : forall row : record,
             read_average (zip_row header row)
             = match nth_error row 2 with
               | Some s => py_float s
               | None => Raise TypeError
               end).
  { intros row.
    destruct row as [|a [|b [|c [|d [|e [|f rest]]]]]]; reflexivity. }
  split; [exact Hthird|]. split.
  - intros row before after Hlen.
    assert (Hraise : read_average (zip_row header row) = Raise TypeError).
    { rewrite Hthird.
      destruct row as [|a [|b [|c rest]]]; [reflexivity .. |].
      cbn [List.length] in Hlen. lia. }
    assert (Hskip : all_averages (header :: before ++ row :: after)
                    = all_averages (header :: before ++ after)).
    { apply all_averages_skip. unfold row_averages. rewrite Hraise. reflexivity. }
    split; [intros _; exact Hraise|]. split; [exact Hskip|].
    rewrite !load_history_spec, Hskip. reflexivity.
  - intros fieldnames rows Hnot.
    assert (Hread : forall row,
               read_average (zip_row fieldnames row) = Raise KeyError).
    { intros row. unfold read_average.
      rewrite (dict_get_missing _ _ Hnot). reflexivity. }
    assert (Hall : all_averages (fieldnames :: rows) = []).
    { rewrite all_averages_flat_map. cbn [DictReader].
      induction (filter (fun r => negb (is_blank r)) rows) as [|r rs IH].
      - reflexivity.
      - cbn [map flat_map]. unfold row_averages at 1. rewrite Hread.
        exact IH. }
    split; [exact Hread|]. split; [exact Hall|].
    rewrite load_history_spec, Hall. reflexivity.
Qed.

(* ================================================================== *)
(** ** Several sessions *)

Lemma written_average_read (avg_rt : float) :
  py_float (format_fixed 1 avg_rt) = Ok (written_average avg_rt).
Proof.
  unfold written_average.
  destruct (py_float_format_fixed_1 avg_rt) as [y ->]. reflexivity.
Qed.

Lemma save_results_step (now : datetime) (results : list float) (avg_rt : float)
    (st : state) :
  log_well_formed (log st) ->
  results <> [] ->
  exists st',
    save_results now results avg_rt st = (Ok tt, st')
    /\ home st' = home st
    /\ log_well_formed (log st')
    /\ log st' <> None
    /\ stored_averages (log st')
       = (stored_averages (log st) ++ [written_average avg_rt])%list.
Proof.
  intros Hwf Hne.
  destruct (save_results_log now results avg_rt st Hne)
    as (fastest & slowest & _ & _ & Hsave).
  eexists. split; [exact Hsave|]. cbn [home log].
  split; [reflexivity|].
  destruct (log st) as [f|].
  - destruct Hwf as [rows ->].
    change ((header :: rows) ++ ?r)%list with (header :: rows ++ r)%list.
    split; [eexists; reflexivity|]. split; [discriminate|].
    cbn [stored_averages].
    apply all_averages_append_row, written_average_read.
  - change ([header] ++ ?r)%list with (header :: [] ++ r)%list.
    split; [eexists; reflexivity|]. split; [discriminate|].
    cbn [stored_averages].
    rewrite (all_averages_append_row [] _ _ _ _ _ _ _ (written_average_read avg_rt)).
    reflexivity.
Qed.

(** X12. Saving composes over sessions.  Starting from a log this program
    wrote (or none) and saving any number of sessions with at least one
    trial each, every save succeeds, the log stays well formed, and the
    averages it stores are the prior ones followed, in order, by each
    session's average as read back from its one-decimal text.  Loading
    then gives all of them but the last session's, or [None] when fewer
    than two are stored. *)
Theorem save_sessions_then_load (sessions : list (datetime * list float * float))
    (st : state) :
  log_well_formed (log st) ->
  Forall (fun s => snd (fst s) <> []) sessions ->
  exists st',
    save_sessions sessions st = (Ok tt, st')
    /\ home st' = home st
    /\ log_well_formed (log st')
    /\ stored_averages (log st')
       = (stored_averages (log st)
          ++ map (fun s => written_average (snd s)) sessions)%list
    /\ load_history (log st')
       = match (stored_averages (log st)
                ++ map (fun s => written_average (snd s)) sessions)%list with
         | [] | [_] => None
         | averages => Some (removelast averages)
         end.
Proof.
  intros Hwf Hall.
  assert (Hrun : exists st',
             save_sessions sessions st = (Ok tt, st')
             /\ home st' = home st
             /\ log_well_formed (log st')
             /\ stored_averages (log st')
                = (stored_averages (log st)
                   ++ map (fun s => written_average (snd s)) sessions)%list).
  { revert st Hwf. induction Hall as [|[[now results] avg_rt] rest Hne _ IH];
      intros st Hwf.
    - exists st. split; [reflexivity|]. split; [reflexivity|].
      split; [exact Hwf|]. cbn [map]. rewrite app_nil_r. reflexivity.
    - cbn [fst snd] in Hne.
      destruct (save_results_step now results avg_rt st Hwf Hne)
        as (st1 & Hsave & Hhome1 & Hwf1 & _ & Hstored1).
      destruct (IH st1 Hwf1) as (st2 & Hrest & Hhome2 & Hwf2 & Hstored2).
      exists st2. split.
      { unfold save_sessions in *. cbn [for_each].
        rewrite (iobind_ok _ _ _ _ _ Hsave). exact Hrest. }
      split; [congruence|]. split; [exact Hwf2|].
      rewrite Hstored2, Hstored1, <- app_assoc. reflexivity. }
  destruct Hrun as (st' & Hsave & Hhome & Hwf' & Hstored).
  exists st'. split; [exact Hsave|]. split; [exact Hhome|].
  split; [exact Hwf'|]. split; [exact Hstored|].
  rewrite <- Hstored.
  destruct (log st') as [f|].
  - apply load_history_spec.
  - reflexivity.
Qed.

Lemma save_sessions_then_load_witness :
  log_well_formed (log example_state)
  /\ Forall (fun s => snd (fst s) <> [])
       [(example_now, example_trials, 155%float);
        (example_now, first_session, 155.05%float)]
  /\ exists st',
    save_sessions [(example_now, example_trials, 155%float);
                   (example_now, first_session, 155.05%float)] example_state
    = (Ok tt, st')
    /\ home st' = home example_state
    /\ log_well_formed (log st')
    /\ stored_averages (log st')
       = (stored_averages (log example_state)
          ++ map (fun s => written_average (snd s))
               [(example_now, example_trials, 155%float);
                (example_now, first_session, 155.05%float)])%list
    /\ load_history (log st')
       = match (stored_averages (log example_state)
                ++ map (fun s => written_average (snd s))
                     [(example_now, example_trials, 155%float);
                      (example_now, first_session, 155.05%float)])%list with
         | [] | [_] => None
         | averages => Some (removelast averages)
         end.
Proof.
  split; [exact I|].
  split; [repeat constructor; discriminate|].
  apply (save_sessions_then_load
           [(example_now, example_trials, 155%float);
            (example_now, first_session, 155.05%float)] example_state).
  - exact I.
  - repeat constructor; discriminate.
Defined.

(* ================================================================== *)
(** ** A whole run *)

Lemma banner_printed (title : string) (st : state) :
  banner title st
  = (Ok tt, printed st [(nl ++ repeat_str "=" 50)%string; title; repeat_str "=" 50]).
Proof.
  unfold banner, iobind. rewrite !print_printed, !printed_printed. reflexivity.
Qed.


Lemma session_stats_nonempty (results : list float) :
  results <> [] ->
  exists avg_rt fastest slowest, session_stats results = Ok (avg_rt, fastest, slowest).
Proof.
  intros Hne.
  destruct (py_min_nonempty _ Hne) as [fastest Hmin].
  destruct (py_max_nonempty _ Hne) as [slowest Hmax].
  destruct results as [|x rest]; [contradiction|].
  eexists. exists fastest, slowest. unfold session_stats.
  cbn [py_truediv List.length bind]. rewrite Hmin, Hmax. reflexivity.
Qed.

Ltac io_step H := rewrite (iobind_ok _ _ _ _ _ H); cbv beta.
Ltac io_print := rewrite (iobind_ok _ _ _ _ _ (print_printed _ _)); cbv beta;
                 rewrite ?printed_printed.
Ltac io_banner := rewrite (iobind_ok _ _ _ _ _ (banner_printed _ _)); cbv beta;
                  rewrite ?printed_printed.


Lemma get_interpretation_single (now : datetime) (avg_rt : float) (time_of_day : Z)
    (x : float) :
  get_interpretation now avg_rt time_of_day [x] = Raise ZeroDivisionError.
Proof. reflexivity. Qed.

Lemma finish_session_fails (env : environment) (results : list float) (st : state) :
  ((List.length results < 2)%nat \/ bars_defined results = false) ->
  exists e st',
    finish_session env results st = (Raise e, st')
    /\ same_files st st'
    /\ (results = [] -> e = ZeroDivisionError /\ st' = st)
    /\ (bars_defined results = false -> e = ValueError \/ e = OverflowError)
    /\ (List.length results = 1%nat -> bars_defined results = true ->
        e = ZeroDivisionError).
Proof.
  intros Hcase.
  destruct results as [|x rest].
  - exists ZeroDivisionError, st. split; [reflexivity|].
    split; [apply same_files_refl|]. split; [split; reflexivity|].
    split; [discriminate|]. intros _ _. reflexivity.
  - assert (Hne : x :: rest <> []) by discriminate.
    destruct (session_stats_nonempty _ Hne) as (avg_rt & fastest & slowest & Hstats).
    unfold finish_session.
    rewrite (iobind_ok _ _ st st (avg_rt, fastest, slowest))
      by (unfold lift; rewrite Hstats; reflexivity).
    cbv beta iota.
    destruct (calculate_percentile avg_rt) as [percentile percentile_desc].
    io_banner.
    destruct (display_histogram_printed (x :: rest) (printed st
                [(nl ++ repeat_str "=" 50)%string; "📊  RESULTS"; repeat_str "=" 50]))
      as [Hok Herr].
    destruct (bars_defined (x :: rest)) eqn:Hbars.
    + destruct (Hok eq_refl) as (hist & Hhist & _).
      destruct Hcase as [Hlen | Hfalse]; [|discriminate Hfalse].
      destruct rest as [|y rest]; [|cbn in Hlen; lia].
      io_step Hhist. rewrite ?printed_printed.
      do 5 io_print. io_banner.
      match goal with
      | |- context [iobind (lift _) _ ?s] =>
          rewrite (iobind_raise _ _ s s ZeroDivisionError)
            by (unfold lift; rewrite get_interpretation_single; reflexivity)
      end.
      eexists. eexists. split; [reflexivity|].
      split; [apply same_files_printed|]. split; [discriminate|].
      split; [discriminate|]. intros _ _. reflexivity.
    + destruct (Herr eq_refl) as (e & hist & Hhist & He & _).
      rewrite (iobind_raise _ _ _ _ _ Hhist). rewrite ?printed_printed.
      exists e. eexists. split; [reflexivity|].
      split; [apply same_files_printed|]. split; [discriminate|].
      split; [intros _; exact He|]. intros _ Hfalse. discriminate Hfalse.
Qed.

Lemma reaction_time_test_trials (env : environment) (num_trials : nat) (st : state) :
  exists lines,
    reaction_time_test env num_trials st
    = finish_session env (measured_times env num_trials) (printed st lines).
Proof.
  unfold reaction_time_test.
  io_banner. do 5 io_print.
  match goal with
  | |- context [iobind (run_trials ?e ?n ?t ?r) _ ?s] =>
      destruct (run_trials_spec e n t r s) as (lines & Hrun & _)
  end.
  io_step Hrun. rewrite ?printed_printed. cbn [app].
  eexists. unfold measured_times. reflexivity.
Qed.

Lemma measured_times_length (env : environment) (num_trials : nat) :
  List.length (measured_times env num_trials) = num_trials.
Proof. unfold measured_times. rewrite length_map, length_seq. reflexivity. Qed.



(** X14. Every other run fails and leaves the log as it was (no file is
    created, no record added): with no trial the average divides by zero
    before anything is analysed; with a reaction time whose twentieth is not
    finite the histogram raises [ValueError] or [OverflowError]; with one
    good trial the analysis divides by zero. *)
Theorem reaction_time_test_failure_keeps_log (env : environment) (num_trials : nat)
    (st : state) :
  ((num_trials < 2)%nat \/ bars_defined (measured_times env num_trials) = false) ->
  exists e st',
    reaction_time_test env num_trials st = (Raise e, st')
    /\ same_files st st'
    /\ (num_trials = 0%nat -> e = ZeroDivisionError)
    /\ (bars_defined (measured_times env num_trials) = false ->
        e = ValueError \/ e = OverflowError)
    /\ (num_trials = 1%nat -> bars_defined (measured_times env num_trials) = true ->
        e = ZeroDivisionError).
Proof.
  intros Hcase.
  destruct (reaction_time_test_trials env num_trials st) as [lines ->].
  rewrite <- (measured_times_length env num_trials) in Hcase at 1.
  destruct (finish_session_fails env _ (printed st lines) Hcase)
    as (e & st' & Hrun & Hsame & Hnone & Hbars & Hone).
  exists e, st'. split; [exact Hrun|].
  split; [exact (same_files_trans _ _ _ (same_files_printed st lines) Hsame)|].
  split.
  { intros ->. apply Hnone. reflexivity. }
  split; [exact Hbars|].
  intros Hn. apply Hone. rewrite measured_times_length. exact Hn.
Qed.

Lemma reaction_time_test_failure_keeps_log_witness :
  ((1 < 2)%nat \/ bars_defined (measured_times example_env 1) = false)
  /\ exists e st',
    reaction_time_test example_env 1 example_state = (Raise e, st')
    /\ same_files example_state st'
    /\ (1%nat = 0%nat -> e = ZeroDivisionError)
    /\ (bars_defined (measured_times example_env 1) = false ->
        e = ValueError \/ e = OverflowError)
    /\ (1%nat = 1%nat -> bars_defined (measured_times example_env 1) = true ->
        e = ZeroDivisionError).
Proof.
  split; [left; lia|].
  apply (reaction_time_test_failure_keeps_log example_env 1 example_state).
  left. lia.
Defined.

(* ================================================================== *)
(** ** The feedback after a trial *)

Lemma feedback_bands (rt : float) :
  ((rt <? 200)%float = true -> (95 <=? fst (calculate_percentile rt)) = true)
  /\ ((rt <? 200)%float = false -> (rt <? 270)%float = true ->
      (95 <=? fst (calculate_percentile rt)) = false
      /\ (50 <=? fst (calculate_percentile rt)) = true)
  /\ ((rt <? 200)%float = false -> (rt <? 270)%float = false ->
      (95 <=? fst (calculate_percentile rt)) = false
      /\ (50 <=? fst (calculate_percentile rt)) = false).
Proof.
  assert (Hlt : forall s t : float, (s <=? t)%float = true ->
                  (rt <? s)%float = true -> (rt <? t)%float = true).
  { intros s t Hst Hs. float_order. }
  unfold calculate_percentile.
  split; [|split].
  - intros H200. destruct (rt <? 180)%float; [reflexivity|].
    rewrite H200. reflexivity.
  - intros H200 H270.
    destruct (rt <? 180)%float eqn:E1;
      [rewrite (Hlt 180 200 eq_refl E1)%float in H200; discriminate H200|].
    rewrite H200. destruct (rt <? 230)%float; [split; reflexivity|].
    rewrite H270. split; reflexivity.
  - intros H200 H270.
    destruct (rt <? 180)%float eqn:E1;
      [rewrite (Hlt 180 200 eq_refl E1)%float in H200; discriminate H200|].
    rewrite H200.
    destruct (rt <? 230)%float eqn:E3;
      [rewrite (Hlt 230 270 eq_refl E3)%float in H270; discriminate H270|].
    rewrite H270. destruct (rt <? 320)%float; split; reflexivity.
Qed.

Lemma last_printed (st : state) (lines : list string) (line d : string) :
  last (stdout (printed st (lines ++ [line]))) d = line.
Proof. cbn [printed stdout]. rewrite app_assoc. apply last_last. Qed.

(** X15. The feedback printed after a trial agrees with the percentile
    bands of [calculate_percentile]: the last line of a trial says
    "Excellent!" exactly when that reaction time, taken as an average, is in
    the 95th percentile or above, "Good" exactly when it is in the 50th or
    the 85th, and gives the bare time otherwise. *)
Theorem trial_feedback_matches_percentile (env : environment)
    (num_trials trial : nat) (st : state) :
  exists st',
    run_trial env num_trials trial st = (Ok (elapsed_ms env trial), st')
    /\ let rt := elapsed_ms env trial in
       last (stdout st') ""
       = if 95 <=? fst (calculate_percentile rt)
         then "⚡ " ++ format_fixed 0 rt ++ " ms - Excellent!"
         else if 50 <=? fst (calculate_percentile rt)
         then "✓  " ++ format_fixed 0 rt ++ " ms - Good"
         else "   " ++ format_fixed 0 rt ++ " ms".
Proof.
  unfold run_trial, elapsed_ms, iobind, ret.
  destruct (timer env trial) as [start_time end_time].
  set (rt := ((end_time - start_time) * 1000)%float).
  destruct (feedback_bands rt) as (Hfast & Hgood & Hplain).
  rewrite !print_printed, !printed_printed.
  destruct (rt <? 200)%float eqn:H200; [|destruct (rt <? 270)%float eqn:H270];
    rewrite print_printed, printed_printed; eexists; (split; [reflexivity|]);
    cbv zeta; rewrite last_printed.
  - rewrite (Hfast eq_refl). reflexivity.
  - destruct (Hgood eq_refl eq_refl) as [-> ->]. reflexivity.
  - destruct (Hplain eq_refl eq_refl) as [-> ->]. reflexivity.
Qed.
